(** * books_data_pipeline: the three tasks of [dags/dag.py]

    A shallow embedding of [get_books_data], [transform_books_data] and
    [save_to_postgres], the callables of the DAG [books_pipeline_dag], and the
    properties of the pipeline's specification proved (or refuted) on it.

    What the code leaves to its collaborators is kept as data of the model:
    the site is a function from page numbers to responses, the database
    server answers each call according to a schedule of outcomes, and the
    Unicode table of decimal digits above Latin-1 is a section variable. *)

From Stdlib Require Import ZArith QArith List String Ascii Bool Lia.
From stdpp Require Import gmap strings list fin_maps.

Local Open Scope Z_scope.

(** ** Python text

    A Python [str] is a sequence of code points. *)

Abbreviation ustr := (list N).

(** The code points of an ASCII literal. *)
Fixpoint u (s : string) : ustr :=
  match s with
  | EmptyString => []
  | String c s' => N_of_ascii c :: u s'
  end.

(** [£], U+00A3, the currency sign of the listing's prices. *)
Definition pound : N := 163%N.

(** [str.isspace] on one code point: the characters [str.strip()] removes. *)
Definition isspace (c : N) : bool :=
  ((9 <=? c) && (c <=? 13) || (28 <=? c) && (c <=? 32)
   || (c =? 133) || (c =? 160) || (c =? 5760)
   || (8192 <=? c) && (c <=? 8202)
   || (c =? 8232) || (c =? 8233) || (c =? 8239) || (c =? 8287)
   || (c =? 12288))%N.

Fixpoint lstrip (s : ustr) : ustr :=
  match s with
  | c :: s' => if isspace c then lstrip s' else s
  | [] => []
  end.

Definition rstrip (s : ustr) : ustr := rev (lstrip (rev s)).

(** [s.strip()] *)
Definition strip (s : ustr) : ustr := rstrip (lstrip s).

(** ** Python values the tasks hand around *)

Inductive PyVal :=
| PyNone
| PyInt (n : Z).

Inductive Exn :=
| MarkupError      (* AttributeError, KeyError or TypeError of a missing tag or attribute *)
| IndexError
| ConnectionError  (* requests.get could not reach the site *)
| ValueError       (* could not convert string to float *)
| DatabaseError.   (* psycopg2.Error *)

(** [{"title": .., "price": .., "rating": ..}] as [get_books_data] builds it. *)
Record RawItem := mkRaw {
  raw_title : ustr;
  raw_price : ustr;
  raw_rating : ustr
}.

(** A record of the cleaned frame. [price] is the decimal number the parsed
    string writes (the rounding of the float to binary64, and its overflow
    to infinity, are not modelled); [rating] is [None] where pandas
    holds NaN. A column holding NaN is float64, so pandas carries a 3 next
    to a missing label as 3.0: the model keeps the number, not the dtype. *)
Record NormalizedItem := mkNorm {
  title : ustr;
  price : Q;
  rating : option Z
}.

(** ** The world the tasks run in *)

(** One [.product_pod] element, as far as the scraper looks into it: each
    navigation that raises on a missing tag or attribute is an option. *)
Record Container := mkPod {
  h3_a_title : option ustr;        (* container.h3.a["title"] *)
  price_color_text : option ustr;  (* container.select_one(".price_color").text *)
  p_class : option (list ustr)     (* container.p["class"] *)
}.

(** An HTTP response: its status and the [.product_pod] elements of its
    body, in document order. *)
Record Response := mkResp {
  status_code : Z;
  product_pod : list Container
}.

(** Values on the inter-task bus. *)
Inductive XVal :=
| XRaw (records : list RawItem)
| XClean (records : list NormalizedItem).

(** Lines written by [print]. *)
Inductive Line :=
| FailedToFetch (page : Z)
| NoMoreBooksFound
| Scraped (n : Z)
| NoDataToTransform
| CleanedSample (head : list NormalizedItem)
| NoDataToLoad
| Loaded (n : Z).

(** A row of [books]. *)
Record Row := mkRow {
  id : N;
  row_title : ustr;
  row_price : Q;
  row_rating : option Z;
  created_at : N
}.

(** The relation [books] on the server: [None] while the table does not
    exist. *)
Abbreviation Relation := (option (list Row)).

Inductive Stmt :=
| CreateTableIfNotExists
| InsertInto (t : ustr) (p : Q) (r : option Z).

(** Calls on the database driver that completed. *)
Inductive DbCall :=
| Connect
| Execute (s : Stmt)
| Commit
| CursorClose
| Close.

(** A psycopg2 connection: whether it was closed, and the relation as its
    open transaction sees it ([None] outside a transaction). The task
    leaves autocommit off, the driver's default: statements take effect on
    the server's committed state at [commit] only. *)
Record Conn := mkConn {
  closed : bool;
  txn : option Relation
}.

Record World := mkWorld {
  web : Z -> option Response;   (* page number to response; None: unreachable *)
  requested : list Z;           (* pages fetched, oldest first *)
  stdout : list Line;
  xcom : gmap (string * string) XVal;
  books : Relation;             (* committed state of the table *)
  books_id_seq : N;             (* the SERIAL sequence: its next value, or,
                                   with no table, the value it starts from *)
  now : N;                      (* CURRENT_TIMESTAMP *)
  conns : list Conn;            (* every connection opened so far *)
  faults : list bool;           (* outcome of the next server calls: true fails *)
  db_log : list DbCall
}.

Definition set_requested (v : list Z) (w : World) : World :=
  mkWorld (web w) v (stdout w) (xcom w) (books w) (books_id_seq w) (now w)
          (conns w) (faults w) (db_log w).
Definition set_stdout (v : list Line) (w : World) : World :=
  mkWorld (web w) (requested w) v (xcom w) (books w) (books_id_seq w) (now w)
          (conns w) (faults w) (db_log w).
Definition set_xcom (v : gmap (string * string) XVal) (w : World) : World :=
  mkWorld (web w) (requested w) (stdout w) v (books w) (books_id_seq w) (now w)
          (conns w) (faults w) (db_log w).
Definition set_books (v : Relation) (w : World) : World :=
  mkWorld (web w) (requested w) (stdout w) (xcom w) v (books_id_seq w) (now w)
          (conns w) (faults w) (db_log w).
Definition set_books_id_seq (v : N) (w : World) : World :=
  mkWorld (web w) (requested w) (stdout w) (xcom w) (books w) v (now w)
          (conns w) (faults w) (db_log w).
Definition set_conns (v : list Conn) (w : World) : World :=
  mkWorld (web w) (requested w) (stdout w) (xcom w) (books w) (books_id_seq w)
          (now w) v (faults w) (db_log w).
Definition set_faults (v : list bool) (w : World) : World :=
  mkWorld (web w) (requested w) (stdout w) (xcom w) (books w) (books_id_seq w)
          (now w) (conns w) v (db_log w).
Definition set_db_log (v : list DbCall) (w : World) : World :=
  mkWorld (web w) (requested w) (stdout w) (xcom w) (books w) (books_id_seq w)
          (now w) (conns w) (faults w) v.

(** ** Effects: state, exceptions, and the bound on loop iterations *)

Inductive Outcome (A : Type) :=
| Ok (a : A)
| Raise (e : Exn)
| Fuel.   (* the iteration bound of the model was reached: not a Python outcome *)
Arguments Ok {A} a.
Arguments Raise {A} e.
Arguments Fuel {A}.

Definition M (A : Type) : Type := World -> Outcome A * World.

Definition ret {A} (a : A) : M A := fun w => (Ok a, w).
Definition raise {A} (e : Exn) : M A := fun w => (Raise e, w).
Definition bind {A B} (m : M A) (k : A -> M B) : M B :=
  fun w =>
    match m w with
    | (Ok a, w') => k a w'
    | (Raise e, w') => (Raise e, w')
    | (Fuel, w') => (Fuel, w')
    end.
Definition lift {A} (o : Outcome A) : M A := fun w => (o, w).

Notation "x <- m ;; k" := (bind m (fun x => k))
  (at level 100, m at next level, right associativity).
Notation "m ;;; k" := (bind m (fun _ => k))
  (at level 100, right associativity).

Definition print (l : Line) : M unit :=
  fun w => (Ok tt, set_stdout (stdout w ++ [l]) w).

(** A task instance: the task's id, under which its pushes are filed. *)
Record TaskInstance := mkTi { task_id : string }.

Definition xcom_push (ti : TaskInstance) (key : string) (value : XVal) : M unit :=
  fun w => (Ok tt, set_xcom (<[(task_id ti, key) := value]> (xcom w)) w).

Definition xcom_pull (task_ids key : string) : M (option XVal) :=
  fun w => (Ok (xcom w !! (task_ids, key)), w).

(** ** Extract: [get_books_data] *)

Definition len {A} (l : list A) : Z := Z.of_nat (length l).

(** [requests.get(base_url.format(page))] *)
Definition requests_get (page : Z) : M Response :=
  fun w =>
    let w' := set_requested (requested w ++ [page]) w in
    match web w page with
    | Some response => (Ok response, w')
    | None => (Raise ConnectionError, w')
    end.

(** The body of the [for] loop up to the [append]: the three fields of one
    container, read in the order of the source. *)
Definition extract (container : Container) : Outcome RawItem :=
  match h3_a_title container with
  | None => Raise MarkupError
  | Some title =>
    match price_color_text container with
    | None => Raise MarkupError
    | Some text =>
      let price := strip text in
      match p_class container with
      | None => Raise MarkupError
      | Some class =>
        match class !! 1%nat with
        | None => Raise IndexError
        | Some rating => Ok (mkRaw title price rating)
        end
      end
    end
  end.

(** [for container in book_containers: ...], with its [break]. *)
Fixpoint for_container (num_books : Z) (book_containers : list Container)
    (books : list RawItem) : Outcome (list RawItem) :=
  match book_containers with
  | [] => Ok books
  | container :: rest =>
    match extract container with
    | Ok book =>
      let books := books ++ [book] in
      if len books >=? num_books then Ok books
      else for_container num_books rest books
    | Raise e => Raise e
    | Fuel => Fuel
    end
  end.

(** [while len(books) < num_books: ...]; [fuel] bounds the iterations. *)
Fixpoint while_books (fuel : nat) (num_books : Z) (books : list RawItem)
    (page : Z) : M (list RawItem) :=
  if len books <? num_books then
    match fuel with
    | O => lift Fuel
    | S fuel' =>
      response <- requests_get page ;;
      if negb (status_code response =? 200) then
        print (FailedToFetch page) ;;; ret books
      else
        let book_containers := product_pod response in
        match book_containers with
        | [] => print NoMoreBooksFound ;;; ret books
        | _ :: _ =>
          books <- lift (for_container num_books book_containers books) ;;
          while_books fuel' num_books books (page + 1)
        end
    end
  else ret books.

(** Every pass of the loop that does not leave it appends a book, so
    [num_books] passes are enough. [pd.DataFrame(books).to_dict("records")]
    gives the records back as they were appended. *)
Definition get_books_data (num_books : Z) (ti : TaskInstance) : M PyVal :=
  books <- while_books (Z.to_nat num_books) num_books [] 1 ;;
  print (Scraped (len books)) ;;;
  xcom_push ti "raw_book_data" (XRaw books) ;;;
  ret PyNone.

(** ** Transform: [transform_books_data] *)

(** An all-or-nothing map over a column: the first element that raises
    raises for the column. *)
Fixpoint traverse {A B} (f : A -> Outcome B) (l : list A) : Outcome (list B) :=
  match l with
  | [] => Ok []
  | a :: l' =>
    match f a with
    | Ok b =>
      match traverse f l' with
      | Ok bs => Ok (b :: bs)
      | Raise e => Raise e
      | Fuel => Fuel
      end
    | Raise e => Raise e
    | Fuel => Fuel
    end
  end.

(** [rating_map = {"One": 1, "Two": 2, "Three": 3, "Four": 4, "Five": 5}] *)
Definition rating_map : gmap ustr Z :=
  <[u "One" := 1]> (<[u "Two" := 2]> (<[u "Three" := 3]>
    (<[u "Four" := 4]> (<[u "Five" := 5]> ∅)))).

(** [df["rating"].map(rating_map)]: a label without an entry becomes NaN. *)
Definition series_map (m : gmap ustr Z) (col : list ustr) : list (option Z) :=
  map (fun label => m !! label) col.

(** [Series.replace("", "0")]: whole values equal to the empty string. *)
Definition series_replace (s : ustr) : ustr :=
  match s with
  | [] => u "0"
  | _ :: _ => s
  end.

Definition dot : N := 46%N.

(** The records found under a key, as [if not records] reads them: a
    missing key and an empty list are both falsy. The DAG files raw records
    under [raw_book_data] and cleaned ones under [cleaned_book_data] only. *)
Definition raw_records (v : option XVal) : list RawItem :=
  match v with
  | Some (XRaw records) => records
  | _ => []
  end.

Definition cleaned_records (v : option XVal) : list NormalizedItem :=
  match v with
  | Some (XClean records) => records
  | _ => []
  end.

(** [df.to_dict("records")] of the frame with these three columns. *)
Fixpoint to_dict_records (titles : list ustr) (prices : list Q)
    (ratings : list (option Z)) : list NormalizedItem :=
  match titles, prices, ratings with
  | t :: titles', p :: prices', r :: ratings' =>
      mkNorm t p r :: to_dict_records titles' prices' ratings'
  | _, _, _ => []
  end.

Section Normalizer.

(** The decimal digit value of a code point from U+0660 on
    ([Py_UNICODE_TODECIMAL], a table of the interpreter): [None] for a
    code point that is not a decimal digit. Below U+0660 the decimal
    digits are the ASCII ones. *)
Variable unicode_decimal : N -> option N.

Definition decimal (c : N) : option N :=
  if (c <? 1632)%N then
    if ((48 <=? c) && (c <=? 57))%N then Some (c - 48)%N else None
  else unicode_decimal c.

(** The class [\d.]: what [[^\d.]] does not match. *)
Definition digit_or_dot (c : N) : bool :=
  match decimal c with
  | Some _ => true
  | None => (c =? dot)%N
  end.

(** [.str.replace(r"[^\d.]", "", regex=True)] on one value. *)
Definition str_replace (s : ustr) : ustr := List.filter digit_or_dot s.

(** The longest prefix of decimal digits, as digit values, and the rest. *)
Fixpoint take_digits (s : ustr) : list N * ustr :=
  match s with
  | c :: s' =>
    match decimal c with
    | Some d => let (ds, r) := take_digits s' in (d :: ds, r)
    | None => ([], s)
    end
  | [] => ([], [])
  end.

Definition of_digits (ds : list N) : N :=
  fold_left (fun acc d => (10 * acc + d)%N) ds 0%N.

(** The number written by integer digits [ip] and fraction digits [fp]. *)
Definition decimal_value (ip fp : list N) : Q :=
  Qred (Z.of_N (of_digits (ip ++ fp)) # Z.to_pos (10 ^ len fp)).

(** [float(s)] on the strings that reach it here, those over digits and
    dots: digits with at most one dot and at least one digit. ([float]
    also reads signs, exponents, [inf], [nan], underscores and blanks
    around the number; [str_replace] leaves none of them.) *)
Definition py_float (s : ustr) : Outcome Q :=
  let (ip, r) := take_digits s in
  match r with
  | [] =>
    match ip with
    | [] => Raise ValueError
    | _ :: _ => Ok (decimal_value ip [])
    end
  | c :: r' =>
    if (c =? dot)%N then
      let (fp, r'') := take_digits r' in
      match r'' with
      | [] =>
        match ip, fp with
        | [], [] => Raise ValueError
        | _, _ => Ok (decimal_value ip fp)
        end
      | _ :: _ => Raise ValueError
      end
    else Raise ValueError
  end.

(** [.astype(float)] on a column of strings. *)
Definition astype_float (col : list ustr) : Outcome (list Q) :=
  traverse py_float col.

Definition transform_books_data (ti : TaskInstance) : M PyVal :=
  v <- xcom_pull "fetch_book_data" "raw_book_data" ;;
  match raw_records v with
  | [] => print NoDataToTransform ;;; ret PyNone
  | (_ :: _) as records =>
    let df_title := map raw_title records in
    let df_price := map raw_price records in
    let df_rating := map raw_rating records in
    df_price <- lift (astype_float
                  (map series_replace (map str_replace df_price))) ;;
    let df_rating := series_map rating_map df_rating in
    let df_title := map strip df_title in
    let df := to_dict_records df_title df_price df_rating in
    print (CleanedSample (firstn 5 df)) ;;;
    xcom_push ti "cleaned_book_data" (XClean df) ;;;
    ret PyNone
  end.

End Normalizer.

(** ** Load: [save_to_postgres] *)

(** A call that reaches the server takes its outcome from the schedule;
    an exhausted schedule means success. Which statements the server
    rejects (a constraint, a type, a lost connection) is the server's
    business: the properties below hold for every schedule. *)
Definition server_call : M unit :=
  fun w =>
    match faults w with
    | [] => (Ok tt, w)
    | false :: rest => (Ok tt, set_faults rest w)
    | true :: rest => (Raise DatabaseError, set_faults rest w)
    end.

Definition logged (c : DbCall) : M unit :=
  fun w => (Ok tt, set_db_log (db_log w ++ [c]) w).

(** [psycopg2.connect(...)]: a new open connection, outside a transaction.
    The handle is the connection's position in [conns]. *)
Definition psycopg2_connect : M nat :=
  server_call ;;;
  logged Connect ;;;
  fun w => (Ok (length (conns w)), set_conns (conns w ++ [mkConn false None]) w).

(** The live connection behind a handle; a closed one raises. *)
Definition the_conn (conn : nat) : M Conn :=
  fun w =>
    match conns w !! conn with
    | Some c => if closed c then (Raise DatabaseError, w) else (Ok c, w)
    | None => (Raise DatabaseError, w)
    end.

(** [conn.cursor()]: the cursor is identified with its connection. *)
Definition conn_cursor (conn : nat) : M nat :=
  the_conn conn ;;; ret conn.

(** The effect of a statement on the relation a transaction sees.
    [id SERIAL] makes the sequence with the table. Once the table is
    committed so is its sequence, and a value it hands out is gone even if
    the transaction is rolled back. In the transaction that creates the
    table the sequence is the transaction's own, like the table: it counts
    the rows inserted so far, and nothing outside the transaction moves
    before the commit. *)
Definition run_stmt (s : Stmt) (view : Relation) : M Relation :=
  match s with
  | CreateTableIfNotExists =>
    match view with
    | None => ret (Some [])
    | Some rows => ret (Some rows)
    end
  | InsertInto t p r =>
    match view with
    | None => raise DatabaseError
    | Some rows =>
      fun w =>
        match books w with
        | Some _ =>
          let row := mkRow (books_id_seq w) t p r (now w) in
          (Ok (Some (rows ++ [row])), set_books_id_seq (books_id_seq w + 1)%N w)
        | None =>
          let row :=
            mkRow (books_id_seq w + N.of_nat (length rows))%N t p r (now w) in
          (Ok (Some (rows ++ [row])), w)
        end
    end
  end.

(** [cur.execute(s)]: the first statement of a connection opens a
    transaction on the committed state. *)
Definition cur_execute (cur : nat) (s : Stmt) : M unit :=
  c <- the_conn cur ;;
  server_call ;;;
  committed <- (fun w => (Ok (books w), w)) ;;
  let view := match txn c with Some v => v | None => committed end in
  view <- run_stmt s view ;;
  logged (Execute s) ;;;
  fun w => (Ok tt, set_conns (<[cur := mkConn false (Some view)]> (conns w)) w).

(** The sequence as a commit leaves it: a table the transaction created
    comes with its sequence, standing after the rows inserted. *)
Definition committed_seq (w : World) (view : Relation) : N :=
  match books w, view with
  | None, Some rows => (books_id_seq w + N.of_nat (length rows))%N
  | _, _ => books_id_seq w
  end.

(** [conn.commit()] *)
Definition conn_commit (conn : nat) : M unit :=
  c <- the_conn conn ;;
  server_call ;;;
  logged Commit ;;;
  fun w =>
    let w :=
      match txn c with
      | Some v => set_books v (set_books_id_seq (committed_seq w v) w)
      | None => w
      end in
    (Ok tt, set_conns (<[conn := mkConn false None]> (conns w)) w).

(** [cur.close()] *)
Definition cur_close (cur : nat) : M unit := logged CursorClose.

(** [conn.close()]: an open transaction is rolled back. *)
Definition conn_close (conn : nat) : M unit :=
  logged Close ;;;
  fun w => (Ok tt, set_conns (<[conn := mkConn true None]> (conns w)) w).

(** [for r in records: cur.execute(INSERT ..., (r["title"], r["price"], r["rating"]))] *)
Fixpoint for_record (cur : nat) (records : list NormalizedItem) : M unit :=
  match records with
  | [] => ret tt
  | r :: rest =>
    cur_execute cur (InsertInto (title r) (price r) (rating r)) ;;;
    for_record cur rest
  end.

Definition save_to_postgres (ti : TaskInstance) : M PyVal :=
  v <- xcom_pull "transform_books_data" "cleaned_book_data" ;;
  match cleaned_records v with
  | [] => print NoDataToLoad ;;; ret PyNone
  | (_ :: _) as records =>
    conn <- psycopg2_connect ;;
    cur <- conn_cursor conn ;;
    cur_execute cur CreateTableIfNotExists ;;;
    for_record cur records ;;;
    conn_commit conn ;;;
    cur_close cur ;;;
    conn_close conn ;;;
    print (Loaded (len records)) ;;;
    ret PyNone
  end.

(** ** The DAG [books_pipeline_dag]

    [fetch_book_data >> transform_books >> save_books_data]: a task runs
    when the one before it succeeded. *)
Definition fetch_book_data : M PyVal :=
  get_books_data 50 (mkTi "fetch_book_data").

Definition save_books_data : M PyVal :=
  save_to_postgres (mkTi "save_books_data").

Section Dag.
Variable unicode_decimal : N -> option N.

Definition transform_books : M PyVal :=
  transform_books_data unicode_decimal (mkTi "transform_books_data").

Definition books_pipeline_dag : M PyVal :=
  fetch_book_data ;;; transform_books ;;; save_books_data.
End Dag.

(** ** Vocabulary of the properties *)

(** *** The site as the Collector walks it *)

(** The containers of page [p] when it is a listing page: reachable,
    status 200, at least one container. *)
Definition listing (site : Z -> option Response) (p : Z) : option (list Container) :=
  match site p with
  | Some response =>
    if status_code response =? 200 then
      match product_pod response with
      | [] => None
      | _ :: _ => Some (product_pod response)
      end
    else None
  | None => None
  end.

(** The containers of the [k] pages from [p] on, in encounter order, when
    all of them are listing pages. *)
Fixpoint catalogue (site : Z -> option Response) (p : Z) (k : nat)
    : option (list Container) :=
  match k with
  | O => Some []
  | S k' =>
    match listing site p, catalogue site (p + 1) k' with
    | Some containers, Some more => Some (containers ++ more)
    | _, _ => None
    end
  end.

(** The page numbers [p], [p+1], ..., [p+k-1]. *)
Fixpoint pages (p : Z) (k : nat) : list Z :=
  match k with
  | O => []
  | S k' => p :: pages (p + 1) k'
  end.

(** The warning the Collector prints on a response that ends the walk. *)
Definition end_of_walk (page : Z) (response : Response) : option Line :=
  if negb (status_code response =? 200) then Some (FailedToFetch page)
  else match product_pod response with
       | [] => Some NoMoreBooksFound
       | _ :: _ => None
       end.

(** *** The Normalizer in the words of the specification *)

(** The fixed five-entry ordinal lookup. *)
Definition spec_rating (label : ustr) : option Z :=
  if decide (label = u "One") then Some 1
  else if decide (label = u "Two") then Some 2
  else if decide (label = u "Three") then Some 3
  else if decide (label = u "Four") then Some 4
  else if decide (label = u "Five") then Some 5
  else None.

(** [t] is [s] without its leading and trailing whitespace. *)
Definition trimmed_of (s t : ustr) : Prop :=
  exists l r,
    s = l ++ t ++ r /\
    forallb isspace l = true /\ forallb isspace r = true /\
    (forall c, head t = Some c -> isspace c = false) /\
    (forall c, last t = Some c -> isspace c = false).

Section NormalizerSpec.

Variable unicode_decimal : N -> option N.

(** Remove every character that is not a digit or a literal dot. *)
Fixpoint numeric_residue (s : ustr) : ustr :=
  match s with
  | [] => []
  | c :: s' =>
    match decimal unicode_decimal c with
    | Some _ => c :: numeric_residue s'
    | None => if (c =? 46)%N then c :: numeric_residue s' else numeric_residue s'
    end
  end.

(** ... if the result is an empty string, treat as "0"; parse as decimal. *)
Definition spec_price (s : ustr) : Outcome Q :=
  match numeric_residue s with
  | [] => py_float unicode_decimal (u "0")
  | (_ :: _) as residue => py_float unicode_decimal residue
  end.

(** One RawItem to one NormalizedItem. *)
Definition normalize (r : RawItem) : Outcome NormalizedItem :=
  match spec_price (raw_price r) with
  | Ok p => Ok (mkNorm (strip (raw_title r)) p (spec_rating (raw_rating r)))
  | Raise e => Raise e
  | Fuel => Fuel
  end.

(** A price string of digits and a single dot. *)
Definition already_numeric (s : ustr) : bool :=
  forallb (digit_or_dot unicode_decimal) s
  && (length (List.filter (fun c => (c =? dot)%N) s) =? 1)%nat.

(** The cleaned price column of the frame built from [records]. *)
Definition price_column (records : list RawItem) : Outcome (list Q) :=
  astype_float unicode_decimal
    (map series_replace (map (str_replace unicode_decimal) (map raw_price records))).

End NormalizerSpec.

(** *** The table as the Persister leaves it *)

(** No failure among the next [n] server calls. *)
Definition no_fault (n : nat) (schedule : list bool) : bool :=
  forallb negb (firstn n schedule).

(** The next server call fails. *)
Definition fails_first (schedule : list bool) : bool :=
  match schedule with
  | true :: _ => true
  | _ => false
  end.

(** How many of the next [n] server calls succeed before one fails. *)
Fixpoint healthy (n : nat) (schedule : list bool) : nat :=
  match n with
  | O => O
  | S n' =>
    match schedule with
    | [] => S (healthy n' [])
    | false :: rest => S (healthy n' rest)
    | true :: _ => O
    end
  end.

(** [run_stmt] as a function of the committed relation, the sequence and
    the clock: the relation seen and the sequence after the statement,
    [None] when it fails. *)
Definition run_stmt_pure (s : Stmt) (committed : Relation) (seq t : N)
    (view : Relation) : option (Relation * N) :=
  match s, view with
  | CreateTableIfNotExists, None => Some (Some [], seq)
  | CreateTableIfNotExists, Some rows => Some (Some rows, seq)
  | InsertInto ti p r, Some rows =>
    match committed with
    | Some _ => Some (Some (rows ++ [mkRow seq ti p r t]), (seq + 1)%N)
    | None =>
      Some (Some (rows ++ [mkRow (seq + N.of_nat (length rows))%N ti p r t]), seq)
    end
  | InsertInto _ _ _, None => None
  end.

(** The id the next insert takes, and the sequence after [j] inserts, in a
    transaction that sees [rows]. *)
Definition next_id (committed : Relation) (seq : N) (rows : list Row) : N :=
  match committed with
  | Some _ => seq
  | None => (seq + N.of_nat (length rows))%N
  end.

Definition seq_after (committed : Relation) (seq : N) (j : nat) : N :=
  match committed with
  | Some _ => (seq + N.of_nat j)%N
  | None => seq
  end.

Definition rows_of (rel : Relation) : list Row :=
  match rel with
  | Some rows => rows
  | None => []
  end.

(** The rows that inserting [records] one by one creates, the sequence
    standing at [seq]. *)
Fixpoint new_rows (seq t : N) (records : list NormalizedItem) : list Row :=
  match records with
  | [] => []
  | r :: rest =>
    mkRow seq (title r) (price r) (rating r) t :: new_rows (seq + 1) t rest
  end.

Definition insert_of (r : NormalizedItem) : Stmt :=
  InsertInto (title r) (price r) (rating r).

Definition item_tuple (r : NormalizedItem) : ustr * Q * option Z :=
  (title r, price r, rating r).

Definition row_tuple (r : Row) : ustr * Q * option Z :=
  (row_title r, row_price r, row_rating r).

(** The calls logged since [w]. *)
Definition calls_since (w w' : World) : list DbCall :=
  skipn (length (db_log w)) (db_log w').

Definition cleaned_slot : string * string :=
  ("transform_books_data"%string, "cleaned_book_data"%string).

Definition raw_slot : string * string :=
  ("fetch_book_data"%string, "raw_book_data"%string).

(** *** Sample inputs *)

(** A digit table in which no code point from U+0660 on is a digit. *)
Definition ascii_digits_only : N -> option N := fun _ => None.

Definition book_a : RawItem :=
  mkRaw (u " Book A ") (pound :: u "12.50") (u "Three").

(** Nothing on the bus, no table, no connection, an unreachable site. *)
Definition blank : World :=
  mkWorld (fun _ => None) [] [] ∅ None 1%N 0%N [] [] [].

Definition with_raw (records : list RawItem) (w : World) : World :=
  set_xcom (<[raw_slot := XRaw records]> (xcom w)) w.

Definition with_cleaned (records : list NormalizedItem) (w : World) : World :=
  set_xcom (<[cleaned_slot := XClean records]> (xcom w)) w.

Definition attic_pod : Container :=
  mkPod (Some (u "A Light in the Attic")) (Some (pound :: u "51.77"))
        (Some [u "star-rating"; u "Three"]).

Definition velvet_pod : Container :=
  mkPod (Some (u "Tipping the Velvet")) (Some (pound :: u "53.74"))
        (Some [u "star-rating"; u "One"]).

(** A container without the tags the scraper reads. *)
Definition broken_pod : Container := mkPod None None None.

Definition attic : RawItem :=
  mkRaw (u "A Light in the Attic") (pound :: u "51.77") (u "Three").

Definition velvet : RawItem :=
  mkRaw (u "Tipping the Velvet") (pound :: u "53.74") (u "One").

(** One listing page, then 404. *)
Definition short_site (last : Container) (page : Z) : option Response :=
  if page =? 1 then Some (mkResp 200 [attic_pod; velvet_pod; last])
  else Some (mkResp 404 []).

Definition on_site (site : Z -> option Response) : World :=
  mkWorld site [] [] ∅ None 1%N 0%N [] [] [].

Definition one_book : NormalizedItem := mkNorm (u "Book A") (25 # 2) (Some 3).

(** The bus holds one cleaned record and the server follows [schedule]. *)
Definition one_book_world (schedule : list bool) : World :=
  set_faults schedule (with_cleaned [one_book] blank).

Definition transform_ti : TaskInstance := mkTi "transform_books_data".
Definition fetch_ti : TaskInstance := mkTi "fetch_book_data".
Definition save_ti : TaskInstance := mkTi "save_books_data".

(** *** What a task leaves alone *)

(** [m] takes every world to one related to it by [R], whatever its
    outcome. *)
Definition keeps {A} (R : World -> World -> Prop) (m : M A) : Prop :=
  forall w, R w (snd (m w)).

(** The database side of the world is as it was. *)
Definition same_database (w w' : World) : Prop :=
  books w' = books w /\ books_id_seq w' = books_id_seq w
  /\ conns w' = conns w /\ faults w' = faults w /\ db_log w' = db_log w.

(** The site and the record of requests are as they were. *)
Definition same_site (w w' : World) : Prop :=
  web w' = web w /\ requested w' = requested w.

(** The bus and the site are as they were, and the sequence has not gone
    back. *)
Definition off_the_bus (w w' : World) : Prop :=
  xcom w' = xcom w /\ web w' = web w /\ requested w' = requested w
  /\ now w' = now w /\ (books_id_seq w <= books_id_seq w')%N.


(** The shape of a record the Normalizer emits. *)
Definition clean_item (item : NormalizedItem) : Prop :=
  (0 <= price item)%Q
  /\ strip (title item) = title item
  /\ (rating item = None \/ exists n, rating item = Some n /\ 1 <= n <= 5).

(** The ids [first], [first+1], ..., [n] of them. *)
Fixpoint ids_from (first : N) (n : nat) : list N :=
  match n with
  | O => []
  | S n' => first :: ids_from (first + 1) n'
  end.


(** A site that answers every page with 503. *)
Definition down_site (page : Z) : option Response := Some (mkResp 503 []).

(** A container whose price text is a lone dot. *)
Definition dot_pod : Container :=
  mkPod (Some (u "Untitled")) (Some (u ".")) (Some [u "star-rating"; u "Two"]).

(** What the [while] loop of the Collector leaves alone: all but the
    record of requests and the printed lines. *)
Definition loop_frame (w w' : World) : Prop :=
  web w' = web w /\ xcom w' = xcom w /\ now w' = now w /\ same_database w w'.

(** A record whose price has no whitespace at either end. *)
Definition price_stripped (r : RawItem) : Prop :=
  strip (raw_price r) = raw_price r.

(** * Properties *)

(** ** Columns *)

Lemma traverse_length {A B} (f : A -> Outcome B) l bs :
  traverse f l = Ok bs -> length bs = length l.
Proof.
  revert bs. induction l as [|a l IH]; intros bs; simpl.
  - intros [= <-]. reflexivity.
  - destruct (f a); try discriminate.
    destruct (traverse f l); try discriminate.
    intros [= <-]. simpl. f_equal. apply IH. reflexivity.
Qed.

Lemma traverse_lookup {A B} (f : A -> Outcome B) l bs (i : nat) a :
  traverse f l = Ok bs -> l !! i = Some a ->
  exists b, bs !! i = Some b /\ f a = Ok b.
Proof.
  revert bs i. induction l as [|x l IH]; intros bs i; simpl.
  - intros _ H. discriminate H.
  - destruct (f x) as [b| |] eqn:Hx; try discriminate.
    destruct (traverse f l) as [bs'| |]; try discriminate.
    intros [= <-]. destruct i as [|i]; simpl.
    + intros [= <-]. exists b. split; [reflexivity | exact Hx].
    + intros H. apply (IH bs' i); [reflexivity | exact H].
Qed.

Lemma traverse_raise {A B} (f : A -> Outcome B) l e :
  traverse f l = Raise e -> exists a, In a l /\ f a = Raise e.
Proof.
  induction l as [|x l IH]; simpl; [discriminate|].
  destruct (f x) as [b| |] eqn:Hx.
  - destruct (traverse f l) as [bs'| |]; try discriminate.
    intros [= <-]. destruct IH as (a & Ha & Hfa); [reflexivity|].
    exists a. split; [right; exact Ha | exact Hfa].
  - intros [= <-]. exists x. split; [left; reflexivity | exact Hx].
  - discriminate.
Qed.

Lemma traverse_no_fuel {A B} (f : A -> Outcome B) l :
  (forall a, f a <> Fuel) -> traverse f l <> Fuel.
Proof.
  intros Hf. induction l as [|x l IH]; simpl; [discriminate|].
  destruct (f x) eqn:Hx; try discriminate.
  - destruct (traverse f l); try discriminate. contradiction.
  - exfalso. apply (Hf x). exact Hx.
Qed.

Lemma traverse_app {A B} (f : A -> Outcome B) l1 l2 :
  traverse f (l1 ++ l2) =
  match traverse f l1 with
  | Ok bs1 =>
    match traverse f l2 with
    | Ok bs2 => Ok (bs1 ++ bs2)
    | Raise e => Raise e
    | Fuel => Fuel
    end
  | Raise e => Raise e
  | Fuel => Fuel
  end.
Proof.
  induction l1 as [|x l1 IH]; simpl.
  - destruct (traverse f l2); reflexivity.
  - destruct (f x); try reflexivity. rewrite IH.
    destruct (traverse f l1); try reflexivity.
    destruct (traverse f l2); reflexivity.
Qed.

Lemma traverse_ext {A B} (f g : A -> Outcome B) l :
  (forall a, f a = g a) -> traverse f l = traverse g l.
Proof.
  intros H. induction l as [|x l IH]; simpl; [reflexivity|].
  rewrite H, IH. reflexivity.
Qed.

(** ** [str.strip] *)

Lemma lstrip_split s :
  exists l, s = l ++ lstrip s /\ forallb isspace l = true /\
            (forall c, head (lstrip s) = Some c -> isspace c = false).
Proof.
  induction s as [|c s (l & Hs & Hl & Hh)]; simpl.
  - exists []. repeat split; simpl; intros; discriminate.
  - destruct (isspace c) eqn:Hc.
    + exists (c :: l). simpl. rewrite Hc, Hl. repeat split.
      * f_equal. exact Hs.
      * exact Hh.
    + exists []. simpl. repeat split. intros c' [= <-]. exact Hc.
Qed.

Lemma lstrip_last s c :
  last (lstrip s) = Some c -> last s = Some c.
Proof.
  induction s as [|x s IH]; simpl; [intros H; exact H|].
  destruct (isspace x); [|intros H; exact H].
  intros H. specialize (IH H). destruct s; [discriminate IH | exact IH].
Qed.

Lemma head_rev {A} (l : list A) : head (rev l) = last l.
Proof.
  induction l as [|x l IH] using rev_ind; [reflexivity|].
  rewrite rev_app_distr. simpl. rewrite last_snoc. reflexivity.
Qed.

Lemma last_rev {A} (l : list A) : last (rev l) = head l.
Proof. rewrite <- head_rev, rev_involutive. reflexivity. Qed.

Lemma forallb_rev {A} (p : A -> bool) l :
  forallb p (rev l) = forallb p l.
Proof.
  induction l as [|x l IH]; simpl; [reflexivity|].
  rewrite forallb_app, IH. simpl. rewrite andb_true_r. apply andb_comm.
Qed.

(** [strip] cuts a run of whitespace off each end and nothing else. *)
Lemma strip_trimmed s : trimmed_of s (strip s).
Proof.
  unfold trimmed_of, strip, rstrip.
  destruct (lstrip_split s) as (l & Hs & Hl & Hh).
  destruct (lstrip_split (rev (lstrip s))) as (r & Hr & Hrs & Hrh).
  exists l, (rev r). repeat split.
  - rewrite <- rev_app_distr, <- Hr, rev_involutive. exact Hs.
  - exact Hl.
  - rewrite forallb_rev. exact Hrs.
  - intros c Hc. apply Hh. rewrite head_rev in Hc.
    apply lstrip_last in Hc. rewrite last_rev in Hc. exact Hc.
  - intros c Hc. apply Hrh. rewrite last_rev in Hc. exact Hc.
Qed.

(** ** The Collector *)

Lemma extract_no_fuel container : extract container <> Fuel.
Proof.
  unfold extract. destruct (h3_a_title container); [|discriminate].
  destruct (price_color_text container); [|discriminate].
  destruct (p_class container) as [class|]; [|discriminate].
  destruct (class !! 1%nat); discriminate.
Qed.

(** The [for] loop extracts the containers it needs to reach [num_books],
    in order, and no more. *)
Lemma for_container_firstn num_books containers books :
  len books < num_books ->
  for_container num_books containers books =
  match traverse extract (firstn (Z.to_nat (num_books - len books)) containers) with
  | Ok items => Ok (books ++ items)
  | Raise e => Raise e
  | Fuel => Fuel
  end.
Proof.
  revert books. induction containers as [|c rest IH]; intros books Hlt.
  - rewrite firstn_nil. simpl. rewrite app_nil_r. reflexivity.
  - destruct (Z.to_nat (num_books - len books)) as [|n] eqn:Hn; [lia|].
    cbn [for_container firstn traverse].
    destruct (extract c) as [book| |]; try reflexivity.
    assert (Hlen : len (books ++ [book]) = len books + 1)
      by (unfold len; rewrite length_app; simpl; lia).
    destruct (len (books ++ [book]) >=? num_books) eqn:Hge.
    + apply Z.geb_le in Hge. assert (n = O) as -> by lia.
      rewrite firstn_O. reflexivity.
    + rewrite Z.geb_leb in Hge. apply Z.leb_gt in Hge.
      rewrite (IH (books ++ [book]) Hge).
      replace (Z.to_nat (num_books - len (books ++ [book]))) with n by lia.
      destruct (traverse extract (firstn n rest)); try reflexivity.
      rewrite <- app_assoc. reflexivity.
Qed.

Lemma listing_inv site p containers :
  listing site p = Some containers ->
  exists response,
    site p = Some response /\ status_code response = 200
    /\ product_pod response = containers /\ containers <> []
    /\ end_of_walk p response = None.
Proof.
  unfold listing, end_of_walk. destruct (site p) as [response|]; [|discriminate].
  destruct (status_code response =? 200) eqn:Hs; [|discriminate].
  destruct (product_pod response) as [|c cs] eqn:Hp; [discriminate|].
  intros [= <-]. exists response. rewrite Hs, Hp. apply Z.eqb_eq in Hs.
  split; [reflexivity|]. split; [exact Hs|]. split; [reflexivity|].
  split; [discriminate | reflexivity].
Qed.

Lemma catalogue_length site p k containers :
  catalogue site p k = Some containers -> (k <= length containers)%nat.
Proof.
  revert p containers. induction k as [|k IH]; intros p containers; simpl.
  - intros _. lia.
  - destruct (listing site p) as [c|] eqn:Hl; [|discriminate].
    destruct (catalogue site (p + 1) k) as [more|] eqn:Hc; [|discriminate].
    intros [= <-]. apply listing_inv in Hl.
    destruct Hl as (_ & _ & _ & _ & Hne & _). specialize (IH _ _ Hc).
    rewrite length_app. destruct c; [contradiction | simpl; lia].
Qed.

Lemma set_requested_id w : set_requested (requested w ++ []) w = w.
Proof. destruct w. unfold set_requested. simpl. rewrite app_nil_r. reflexivity. Qed.

Lemma set_requested_twice l1 l2 w :
  set_requested (requested (set_requested (requested w ++ l1) w) ++ l2)
    (set_requested (requested w ++ l1) w)
  = set_requested (requested w ++ l1 ++ l2) w.
Proof. destruct w. unfold set_requested. simpl. rewrite app_assoc. reflexivity. Qed.

Lemma while_books_done fuel num_books books page w :
  num_books <= len books ->
  while_books fuel num_books books page w = (Ok books, w).
Proof.
  intros H. apply Z.ltb_ge in H. destruct fuel; simpl; rewrite H; reflexivity.
Qed.

(** One pass of the [while] loop. *)
Lemma while_books_step fuel num_books books page w :
  len books < num_books ->
  while_books (S fuel) num_books books page w =
  let w1 := set_requested (requested w ++ [page]) w in
  match web w page with
  | None => (Raise ConnectionError, w1)
  | Some response =>
    match end_of_walk page response with
    | Some warning => (Ok books, set_stdout (stdout w1 ++ [warning]) w1)
    | None =>
      match for_container num_books (product_pod response) books with
      | Ok books' => while_books fuel num_books books' (page + 1) w1
      | Raise e => (Raise e, w1)
      | Fuel => (Fuel, w1)
      end
    end
  end.
Proof.
  intros H. apply Z.ltb_lt in H. cbn [while_books]. rewrite H.
  unfold bind at 1, requests_get, end_of_walk.
  destruct (web w page) as [response|]; [|reflexivity].
  destruct (status_code response =? 200); [|reflexivity].
  destruct (product_pod response) as [|c cs]; reflexivity.
Qed.

Lemma len_app {A} (l1 l2 : list A) : len (l1 ++ l2) = len l1 + len l2.
Proof. unfold len. rewrite length_app. lia. Qed.

(** Listing pages that do not yet fill the target are consumed whole. *)
Lemma while_books_pages k :
  forall fuel num_books books page w containers items,
  catalogue (web w) page k = Some containers ->
  traverse extract containers = Ok items ->
  len books + len containers < num_books ->
  while_books (k + fuel) num_books books page w =
  while_books fuel num_books (books ++ items) (page + Z.of_nat k)
    (set_requested (requested w ++ pages page k) w).
Proof.
  induction k as [|k IH]; intros fuel num_books books page w containers items.
  - simpl. intros [= <-]. simpl. intros [= <-] _.
    rewrite app_nil_r, Z.add_0_r, set_requested_id. reflexivity.
  - cbn [catalogue].
    destruct (listing (web w) page) as [c|] eqn:Hl; [|discriminate].
    destruct (catalogue (web w) (page + 1) k) as [more|] eqn:Hc; [|discriminate].
    intros [= <-]. rewrite traverse_app.
    destruct (traverse extract c) as [i1| |] eqn:Hi1; try discriminate.
    destruct (traverse extract more) as [i2| |] eqn:Hi2; try discriminate.
    intros [= <-]. rewrite len_app. intros Hlt.
    apply listing_inv in Hl.
    destruct Hl as (response & Hweb & _ & Hpod & _ & Hend).
    pose proof (traverse_length _ _ _ Hi1) as Hlen1.
    assert (Hc1 : len i1 = len c) by (unfold len; rewrite Hlen1; reflexivity).
    assert (Hb : len books < num_books) by (unfold len in *; lia).
    cbn [Nat.add]. rewrite (while_books_step _ _ _ _ _ Hb). cbn zeta.
    rewrite Hweb, Hend, Hpod, (for_container_firstn _ _ _ Hb).
    rewrite firstn_all2 by (unfold len in *; lia). rewrite Hi1.
    rewrite (IH fuel num_books (books ++ i1) (page + 1)
               (set_requested (requested w ++ [page]) w) more i2 Hc Hi2)
      by (rewrite len_app; lia).
    rewrite set_requested_twice, <- app_assoc.
    replace (page + 1 + Z.of_nat k) with (page + Z.of_nat (S k)) by lia.
    reflexivity.
Qed.

(** Listing pages that hold enough containers fill the target: the loop
    returns the accumulator extended with the first containers needed. *)
Lemma while_books_enough k :
  forall fuel num_books books page w containers items,
  catalogue (web w) page k = Some containers ->
  num_books <= len books + len containers ->
  traverse extract (firstn (Z.to_nat (num_books - len books)) containers) = Ok items ->
  (Z.to_nat (num_books - len books) <= fuel)%nat ->
  exists j, (j <= k)%nat /\
    while_books fuel num_books books page w =
    (Ok (books ++ items), set_requested (requested w ++ pages page j) w).
Proof.
  induction k as [|k IH]; intros fuel num_books books page w containers items.
  - simpl. intros [= <-]. simpl. rewrite Z.add_0_r. intros Hge.
    rewrite firstn_nil. simpl. intros [= <-] _. exists O.
    split; [lia|]. rewrite while_books_done by exact Hge.
    rewrite app_nil_r, set_requested_id. reflexivity.
  - intros Hcat Hge Hitems Hfuel.
    destruct (Z.le_gt_cases num_books (len books)) as [Hdone|Hb].
    + replace (Z.to_nat (num_books - len books)) with O in Hitems by lia.
      rewrite firstn_O in Hitems. simpl in Hitems. injection Hitems as <-.
      exists O. split; [lia|]. rewrite while_books_done by exact Hdone.
      rewrite app_nil_r, set_requested_id. reflexivity.
    + cbn [catalogue] in Hcat.
      destruct (listing (web w) page) as [c|] eqn:Hl; [|discriminate].
      destruct (catalogue (web w) (page + 1) k) as [more|] eqn:Hc; [|discriminate].
      injection Hcat as <-. rewrite len_app in Hge.
      apply listing_inv in Hl.
      destruct Hl as (response & Hweb & _ & Hpod & Hne & Hend).
      set (n := Z.to_nat (num_books - len books)) in *.
      rewrite firstn_app, traverse_app in Hitems.
      destruct (traverse extract (firstn n c)) as [i1| |] eqn:Hi1; try discriminate.
      destruct (traverse extract (firstn (n - length c) more)) as [i2| |] eqn:Hi2;
        try discriminate.
      injection Hitems as <-.
      pose proof (traverse_length _ _ _ Hi1) as Hlen1.
      rewrite length_take in Hlen1.
      assert (Hc0 : (1 <= length c)%nat) by (destruct c; [contradiction | simpl; lia]).
      assert (Hn : (1 <= n)%nat) by lia.
      destruct fuel as [|fuel]; [lia|].
      rewrite (while_books_step _ _ _ _ _ Hb). cbn zeta.
      rewrite Hweb, Hend, Hpod, (for_container_firstn _ _ _ Hb). fold n.
      rewrite Hi1.
      assert (Hlen : len (books ++ i1) = len books + Z.of_nat (Nat.min n (length c)))
        by (rewrite len_app; unfold len; rewrite Hlen1; reflexivity).
      destruct (IH fuel num_books (books ++ i1) (page + 1)
                  (set_requested (requested w ++ [page]) w) more i2)
        as (j & Hj & Hrun).
      * exact Hc.
      * unfold len in *. lia.
      * replace (Z.to_nat (num_books - len (books ++ i1))) with (n - length c)%nat
          by (unfold len in *; lia).
        exact Hi2.
      * unfold len in *. lia.
      * exists (S j). split; [lia|]. rewrite Hrun, set_requested_twice, <- app_assoc.
        reflexivity.
Qed.

Lemma for_container_grows num_books containers books books' :
  for_container num_books containers books = Ok books' ->
  (length books <= length books')%nat
  /\ (containers <> [] -> (length books < length books')%nat).
Proof.
  revert books. induction containers as [|c rest IH]; intros books; simpl.
  - intros [= <-]. split; [lia | intros H; contradiction].
  - destruct (extract c) as [book| |]; try discriminate.
    destruct (len (books ++ [book]) >=? num_books).
    + intros [= <-]. rewrite length_app. simpl. split; intros; lia.
    + intros H. apply IH in H. destruct H as [H _].
      rewrite length_app in H. simpl in H. split; intros; lia.
Qed.

Lemma for_container_no_fuel num_books containers books :
  for_container num_books containers books <> Fuel.
Proof.
  revert books. induction containers as [|c rest IH]; intros books; simpl.
  - discriminate.
  - destruct (extract c) as [book| |] eqn:He; try discriminate.
    + destruct (len (books ++ [book]) >=? num_books); [discriminate | apply IH].
    + exfalso. exact (extract_no_fuel c He).
Qed.

(** The bound on the passes of the loop is never reached. *)
Lemma while_books_no_fuel fuel :
  forall num_books books page w,
  (Z.to_nat (num_books - len books) <= fuel)%nat ->
  fst (while_books fuel num_books books page w) <> Fuel.
Proof.
  induction fuel as [|fuel IH]; intros num_books books page w Hfuel.
  - rewrite while_books_done by lia. discriminate.
  - destruct (Z.le_gt_cases num_books (len books)) as [Hdone|Hb].
    + rewrite while_books_done by exact Hdone. discriminate.
    + rewrite (while_books_step _ _ _ _ _ Hb). cbn zeta.
      destruct (web w page) as [response|]; [|discriminate].
      destruct (end_of_walk page response) as [warning|] eqn:Hend; [discriminate|].
      destruct (for_container num_books (product_pod response) books)
        as [books'| |] eqn:Hfor; [| discriminate |].
      * apply IH. apply for_container_grows in Hfor. destruct Hfor as [_ Hgrow].
        assert (Hne : product_pod response <> []).
        { unfold end_of_walk in Hend.
          destruct (negb (status_code response =? 200)); [discriminate|].
          destruct (product_pod response); [discriminate | discriminate]. }
        specialize (Hgrow Hne). unfold len in *. lia.
      * exfalso. exact (for_container_no_fuel _ _ _ Hfor).
Qed.

(** [get_books_data] always comes to an end: it returns or raises. *)
Lemma get_books_data_terminates num_books ti w :
  fst (get_books_data num_books ti w) <> Fuel.
Proof.
  unfold get_books_data, bind at 1.
  pose proof (while_books_no_fuel (Z.to_nat num_books) num_books [] 1 w) as H.
  destruct (while_books _ _ _ _ _) as [[books|e|] w'].
  - discriminate.
  - discriminate.
  - exfalso. apply H; [unfold len; cbn [length Z.of_nat]; lia | reflexivity].
Qed.

Lemma pages_snoc p k : pages p (S k) = pages p k ++ [p + Z.of_nat k].
Proof.
  revert p. induction k as [|k IH]; intros p.
  - simpl. rewrite Z.add_0_r. reflexivity.
  - change (pages p (S (S k))) with (p :: pages (p + 1) (S k)).
    rewrite IH. simpl. do 3 f_equal. lia.
Qed.

(** C1. For a target of N >= 1 books, when the first k pages of the site
    are listing pages holding at least N containers and the first N of
    them are well formed, the task emits exactly the N records extracted
    from those first N containers, in order: extraction stops at the N-th,
    whatever follows it on its page, and no page beyond the k is
    fetched. *)
Theorem collector_exact_count num_books ti w k containers items :
  1 <= num_books ->
  catalogue (web w) 1 k = Some containers ->
  num_books <= len containers ->
  traverse extract (firstn (Z.to_nat num_books) containers) = Ok items ->
  len items = num_books
  /\ exists j, (j <= k)%nat /\
       get_books_data num_books ti w =
       (Ok PyNone,
        set_xcom (<[(task_id ti, "raw_book_data"%string) := XRaw items]> (xcom w))
          (set_stdout (stdout w ++ [Scraped num_books])
             (set_requested (requested w ++ pages 1 j) w))).
Proof.
  intros Hn Hcat Hge Hitems.
  assert (Hlen : len items = num_books).
  { unfold len in *. rewrite (traverse_length _ _ _ Hitems), length_take. lia. }
  split; [exact Hlen|].
  destruct (while_books_enough k (Z.to_nat num_books) num_books [] 1 w
              containers items Hcat) as (j & Hj & Hrun).
  - unfold len at 1. simpl. exact Hge.
  - unfold len at 1. simpl. rewrite Z.sub_0_r. exact Hitems.
  - unfold len. simpl. lia.
  - exists j. split; [exact Hj|].
    unfold get_books_data, bind at 1. rewrite Hrun. cbn [app].
    unfold bind, print, xcom_push, ret. rewrite Hlen. reflexivity.
Qed.

(** C8. For any target, when the first k pages are listing pages of well
    formed containers that do not fill the target and the next page comes
    back with a status other than 200 or without containers, the task
    prints the warning, raises nothing and emits exactly the records of
    those k pages. *)
Theorem collector_partial_results num_books ti w k containers items response :
  catalogue (web w) 1 k = Some containers ->
  traverse extract containers = Ok items ->
  len containers < num_books ->
  web w (1 + Z.of_nat k) = Some response ->
  status_code response <> 200 \/ product_pod response = [] ->
  exists warning,
    end_of_walk (1 + Z.of_nat k) response = Some warning
    /\ get_books_data num_books ti w =
       (Ok PyNone,
        set_xcom (<[(task_id ti, "raw_book_data"%string) := XRaw items]> (xcom w))
          (set_stdout (stdout w ++ [warning; Scraped (len items)])
             (set_requested (requested w ++ pages 1 (S k)) w))).
Proof.
  intros Hcat Hitems Hlt Hweb Hbad.
  assert (Hend : exists warning, end_of_walk (1 + Z.of_nat k) response = Some warning).
  { unfold end_of_walk. destruct (Z.eqb_spec (status_code response) 200) as [Hs|Hs].
    - destruct Hbad as [Hbad|Hbad]; [contradiction|]. rewrite Hbad.
      eexists. reflexivity.
    - eexists. reflexivity. }
  destruct Hend as [warning Hend]. exists warning. split; [exact Hend|].
  pose proof (catalogue_length _ _ _ _ Hcat) as Hk.
  pose proof (traverse_length _ _ _ Hitems) as Hli.
  unfold get_books_data, bind at 1.
  replace (Z.to_nat num_books) with (k + S (Z.to_nat num_books - k - 1))%nat
    by (unfold len in *; lia).
  rewrite (while_books_pages k _ num_books [] 1 w containers items Hcat Hitems)
    by (unfold len in *; simpl; lia).
  rewrite while_books_step by (unfold len in *; simpl; lia).
  cbn zeta. cbn [web set_requested app]. rewrite Hweb, Hend.
  unfold bind, print, xcom_push, ret. rewrite pages_snoc.
  cbn [stdout xcom set_stdout set_requested web requested books books_id_seq
       now conns faults db_log].
  rewrite <- !app_assoc. reflexivity.
Qed.

Lemma collector_exact_count_witness :
  1 <= 2
  /\ catalogue (web (on_site (short_site broken_pod))) 1 1
     = Some [attic_pod; velvet_pod; broken_pod]
  /\ extract broken_pod = Raise MarkupError
  /\ fst (get_books_data 2 fetch_ti (on_site (short_site broken_pod))) = Ok PyNone
  /\ xcom (snd (get_books_data 2 fetch_ti (on_site (short_site broken_pod))))
       !! raw_slot = Some (XRaw [attic; velvet]).
Proof.
  split; [lia|]. split; [reflexivity|]. split; [reflexivity|].
  destruct (collector_exact_count 2 fetch_ti (on_site (short_site broken_pod)) 1
              [attic_pod; velvet_pod; broken_pod] [attic; velvet])
    as (_ & j & _ & Hrun);
    [lia | reflexivity | vm_compute; discriminate | reflexivity |].
  rewrite Hrun. split; [reflexivity | vm_compute; reflexivity].
Defined.

Lemma collector_partial_results_witness :
  catalogue (web (on_site (short_site velvet_pod))) 1 1
  = Some [attic_pod; velvet_pod; velvet_pod]
  /\ fst (fetch_book_data (on_site (short_site velvet_pod))) = Ok PyNone
  /\ stdout (snd (fetch_book_data (on_site (short_site velvet_pod))))
     = [FailedToFetch 2; Scraped 3]
  /\ xcom (snd (fetch_book_data (on_site (short_site velvet_pod)))) !! raw_slot
     = Some (XRaw [attic; velvet; velvet]).
Proof.
  split; [reflexivity|].
  destruct (collector_partial_results 50 fetch_ti (on_site (short_site velvet_pod)) 1
              [attic_pod; velvet_pod; velvet_pod] [attic; velvet; velvet]
              (mkResp 404 []))
    as (warning & Hw & Hrun);
    [reflexivity | reflexivity | vm_compute; reflexivity | reflexivity
    | left; discriminate |].
  injection Hw as <-.
  change fetch_book_data with (get_books_data 50 fetch_ti). rewrite Hrun.
  split; [reflexivity|]. split; [reflexivity | vm_compute; reflexivity].
Defined.

(** ** The Normalizer *)

Lemma rating_map_spec (label : ustr) : rating_map !! label = spec_rating label.
Proof.
  unfold rating_map, spec_rating.
  repeat (rewrite lookup_insert; case_decide;
          [subst label; reflexivity|];
          destruct (decide (label = _)) as [?|_]; [congruence|]).
  apply lookup_empty.
Qed.

Lemma series_map_lookup (m : gmap ustr Z) (col : list ustr) (i : nat) label :
  col !! i = Some label -> series_map m col !! i = Some (m !! label).
Proof.
  intros H. unfold series_map. rewrite list_lookup_fmap, H. reflexivity.
Qed.

Section NormalizerProperties.

Variable unicode_decimal : N -> option N.

Lemma numeric_residue_filter s :
  numeric_residue unicode_decimal s = str_replace unicode_decimal s.
Proof.
  unfold str_replace.
  induction s as [|c s IH]; simpl; [reflexivity|].
  unfold digit_or_dot, dot.
  destruct (decimal unicode_decimal c); [rewrite IH; reflexivity|].
  destruct (c =? 46)%N; rewrite IH; reflexivity.
Qed.

Lemma spec_price_code s :
  spec_price unicode_decimal s
  = py_float unicode_decimal (series_replace (str_replace unicode_decimal s)).
Proof.
  unfold spec_price. rewrite numeric_residue_filter.
  destruct (str_replace unicode_decimal s); reflexivity.
Qed.

Lemma py_float_raises s e : py_float unicode_decimal s = Raise e -> e = ValueError.
Proof.
  unfold py_float.
  destruct (take_digits unicode_decimal s) as [ip r].
  destruct r as [|c r'].
  - destruct ip; [intros [= <-]; reflexivity | discriminate].
  - destruct (c =? dot)%N; [|intros [= <-]; reflexivity].
    destruct (take_digits unicode_decimal r') as [fp r''].
    destruct r''; [|intros [= <-]; reflexivity].
    destruct ip, fp; try discriminate. intros [= <-]. reflexivity.
Qed.

Lemma py_float_no_fuel s : py_float unicode_decimal s <> Fuel.
Proof.
  unfold py_float.
  destruct (take_digits unicode_decimal s) as [ip r].
  destruct r as [|c r'].
  - destruct ip; discriminate.
  - destruct (c =? dot)%N; [|discriminate].
    destruct (take_digits unicode_decimal r') as [fp r''].
    destruct r''; [|discriminate].
    destruct ip, fp; discriminate.
Qed.

Lemma normalize_no_fuel r : normalize unicode_decimal r <> Fuel.
Proof.
  unfold normalize. rewrite spec_price_code.
  destruct (py_float unicode_decimal _) eqn:H; try discriminate.
  exfalso. exact (py_float_no_fuel _ H).
Qed.

Lemma normalize_raises r e :
  normalize unicode_decimal r = Raise e -> e = ValueError.
Proof.
  unfold normalize. rewrite spec_price_code.
  destruct (py_float unicode_decimal _) eqn:H; try discriminate.
  intros [= <-]. exact (py_float_raises _ _ H).
Qed.

(** The frame computed column by column is the list computed record by
    record. *)
Lemma normalize_columns records :
  traverse (normalize unicode_decimal) records =
  match price_column unicode_decimal records with
  | Ok prices =>
    Ok (to_dict_records (map strip (map raw_title records)) prices
          (series_map rating_map (map raw_rating records)))
  | Raise e => Raise e
  | Fuel => Fuel
  end.
Proof.
  unfold price_column, astype_float.
  induction records as [|r records IH]; [reflexivity|].
  cbn [traverse map]. rewrite IH. clear IH. unfold normalize at 1.
  rewrite spec_price_code.
  destruct (py_float unicode_decimal _); try reflexivity.
  destruct (traverse (py_float unicode_decimal) _); try reflexivity.
  cbn. rewrite rating_map_spec. reflexivity.
Qed.

Lemma traverse_raise_in {A B} (f : A -> Outcome B) l a e0 :
  In a l -> f a = Raise e0 ->
  (forall x e, f x = Raise e -> e = e0) -> (forall x, f x <> Fuel) ->
  traverse f l = Raise e0.
Proof.
  intros Hin Ha Hr Hf. induction l as [|x l IH]; [destruct Hin|].
  simpl. destruct Hin as [->|Hin].
  - rewrite Ha. reflexivity.
  - destruct (f x) as [b|e|] eqn:Hx.
    + rewrite (IH Hin). reflexivity.
    + f_equal. exact (Hr x e Hx).
    + exfalso. exact (Hf x Hx).
Qed.

(** What a run of the task does, in terms of the per-record map. *)
Lemma transform_books_data_run ti w :
  transform_books_data unicode_decimal ti w =
  match raw_records (xcom w !! raw_slot) with
  | [] => (Ok PyNone, set_stdout (stdout w ++ [NoDataToTransform]) w)
  | (_ :: _) as records =>
    match traverse (normalize unicode_decimal) records with
    | Ok df =>
      (Ok PyNone,
       set_xcom (<[(task_id ti, "cleaned_book_data"%string) := XClean df]> (xcom w))
         (set_stdout (stdout w ++ [CleanedSample (firstn 5 df)]) w))
    | Raise e => (Raise e, w)
    | Fuel => (Fuel, w)
    end
  end.
Proof.
  unfold transform_books_data, bind, xcom_pull, raw_slot.
  destruct (raw_records _) as [|r records] eqn:Hrec; [reflexivity|].
  rewrite normalize_columns. unfold price_column, lift.
  destruct (astype_float _ _); reflexivity.
Qed.

(** C4. The Normalizer maps the records one by one and in order: when
    every price parses, the task emits, for the i-th raw record, exactly its
    own normalisation (title trimmed, price the parsed residue of digits
    and dots with the empty residue read as "0", rating the fixed lookup);
    a price that does not parse raises for the run. The record
    [{" Book A ", "£12.50", "Three"}] maps to [{"Book A", 12.50, 3}]. *)
Theorem transform_books_data_per_item ti w :
  raw_records (xcom w !! raw_slot) <> [] ->
  match traverse (normalize unicode_decimal) (raw_records (xcom w !! raw_slot)) with
  | Ok df =>
    transform_books_data unicode_decimal ti w =
      (Ok PyNone,
       set_xcom (<[(task_id ti, "cleaned_book_data"%string) := XClean df]> (xcom w))
         (set_stdout (stdout w ++ [CleanedSample (firstn 5 df)]) w))
    /\ length df = length (raw_records (xcom w !! raw_slot))
    /\ forall (i : nat) r,
         raw_records (xcom w !! raw_slot) !! i = Some r ->
         exists item,
           df !! i = Some item
           /\ normalize unicode_decimal r = Ok item
           /\ trimmed_of (raw_title r) (title item)
           /\ py_float unicode_decimal
                (series_replace (str_replace unicode_decimal (raw_price r)))
              = Ok (price item)
           /\ rating item = rating_map !! raw_rating r
  | Raise e =>
    e = ValueError /\ transform_books_data unicode_decimal ti w = (Raise ValueError, w)
  | Fuel => False
  end
  /\ exists item,
       title item = u "Book A" /\ (price item == 12.50)%Q /\ rating item = Some 3
       /\ normalize unicode_decimal book_a = Ok item
       /\ forall w',
            xcom w' !! raw_slot = Some (XRaw [book_a]) ->
            transform_books_data unicode_decimal ti w' =
              (Ok PyNone,
               set_xcom (<[(task_id ti, "cleaned_book_data"%string) := XClean [item]]> (xcom w'))
                 (set_stdout (stdout w' ++ [CleanedSample [item]]) w')).
Proof.
  intros Hne. split.
  - rewrite (transform_books_data_run ti w).
    destruct (raw_records _) as [|r0 records] eqn:Hrec; [contradiction|].
    destruct (traverse _ (r0 :: records)) as [df|e|] eqn:Ht.
    + split; [reflexivity|]. split; [exact (traverse_length _ _ _ Ht)|].
      intros i r Hi.
      destruct (traverse_lookup _ _ _ i r Ht Hi) as (item & Hitem & Hn).
      exists item. split; [exact Hitem|]. split; [exact Hn|].
      unfold normalize in Hn. rewrite spec_price_code in Hn.
      destruct (py_float unicode_decimal _) as [q| |]; try discriminate.
      injection Hn as <-. simpl. split; [apply strip_trimmed|].
      split; [reflexivity | symmetry; apply rating_map_spec].
    + apply traverse_raise in Ht. destruct Ht as (r & _ & Hr).
      apply normalize_raises in Hr. subst e. split; reflexivity.
    + exact (traverse_no_fuel _ _ normalize_no_fuel Ht).
  - exists (mkNorm (u "Book A") (25 # 2) (Some 3)).
    repeat split.
    intros w' Hw'. rewrite (transform_books_data_run ti w'), Hw'. reflexivity.
Qed.

Lemma traverse_map_proj {A B C} (f : A -> Outcome B) (g : B -> C) (h : A -> C) l bs :
  (forall a b, f a = Ok b -> g b = h a) ->
  traverse f l = Ok bs -> map g bs = map h l.
Proof.
  intros Hf. revert bs. induction l as [|a l IH]; intros bs; simpl.
  - intros [= <-]. reflexivity.
  - destruct (f a) as [b| |] eqn:Ha; try discriminate.
    destruct (traverse f l) as [bs'| |]; try discriminate.
    intros [= <-]. simpl. rewrite (Hf a b Ha), (IH bs' eq_refl). reflexivity.
Qed.

(** The rating of a normalised record is the dictionary lookup of its
    label. *)
Lemma normalize_rating r item :
  normalize unicode_decimal r = Ok item ->
  rating item = rating_map !! raw_rating r.
Proof.
  unfold normalize.
  destruct (spec_price unicode_decimal (raw_price r)); try discriminate.
  intros [= <-]. symmetry. apply rating_map_spec.
Qed.

(** C5. The five labels map to 1..5 and every other label to the missing
    value, and that is the rating the Normalizer emits: in a run on a
    non-empty input whose price column parses, the task returns and the
    i-th record it pushes carries the lookup of the i-th raw record's
    label. The mapping never raises: such a run succeeds whatever the
    labels are, and a run that raises does so on a price, with
    ValueError. *)
Theorem rating_mapping_total :
  rating_map !! u "One" = Some 1 /\ rating_map !! u "Two" = Some 2
  /\ rating_map !! u "Three" = Some 3 /\ rating_map !! u "Four" = Some 4
  /\ rating_map !! u "Five" = Some 5
  /\ (forall label : ustr,
        label <> u "One" -> label <> u "Two" -> label <> u "Three" ->
        label <> u "Four" -> label <> u "Five" ->
        rating_map !! label = None)
  /\ (forall (col : list ustr) (i : nat) label,
        col !! i = Some label ->
        series_map rating_map col !! i = Some (rating_map !! label))
  /\ (forall ti w prices,
        price_column unicode_decimal (raw_records (xcom w !! raw_slot)) = Ok prices ->
        fst (transform_books_data unicode_decimal ti w) = Ok PyNone)
  /\ (forall ti w e,
        fst (transform_books_data unicode_decimal ti w) = Raise e ->
        e = ValueError
        /\ exists r, In r (raw_records (xcom w !! raw_slot))
             /\ py_float unicode_decimal
                  (series_replace (str_replace unicode_decimal (raw_price r)))
                = Raise ValueError)
  /\ (forall ti w prices,
        raw_records (xcom w !! raw_slot) <> [] ->
        price_column unicode_decimal (raw_records (xcom w !! raw_slot)) = Ok prices ->
        exists df,
          fst (transform_books_data unicode_decimal ti w) = Ok PyNone
          /\ xcom (snd (transform_books_data unicode_decimal ti w))
               !! (task_id ti, "cleaned_book_data"%string) = Some (XClean df)
          /\ length df = length (raw_records (xcom w !! raw_slot))
          /\ map rating df
             = series_map rating_map (map raw_rating (raw_records (xcom w !! raw_slot)))
          /\ forall (i : nat) r,
               raw_records (xcom w !! raw_slot) !! i = Some r ->
               exists item,
                 df !! i = Some item /\ rating item = rating_map !! raw_rating r).
Proof.
  repeat (split; [reflexivity|]).
  split; [|split; [|split; [|split]]].
  - intros label H1 H2 H3 H4 H5. rewrite rating_map_spec. unfold spec_rating.
    repeat (destruct (decide (label = _)) as [?|_]; [contradiction|]).
    reflexivity.
  - intros col i label. apply series_map_lookup.
  - intros ti w prices Hp. rewrite transform_books_data_run.
    destruct (raw_records _) as [|r0 records]; [reflexivity|].
    rewrite normalize_columns, Hp. reflexivity.
  - intros ti w e. rewrite transform_books_data_run.
    destruct (raw_records _) as [|r0 records]; [discriminate|].
    destruct (traverse _ _) as [df|e'|] eqn:Ht; try discriminate.
    intros [= ->]. apply traverse_raise in Ht. destruct Ht as (r & Hin & Hr).
    pose proof (normalize_raises _ _ Hr) as ->. split; [reflexivity|].
    exists r. split; [exact Hin|].
    unfold normalize in Hr. rewrite spec_price_code in Hr.
    destruct (py_float unicode_decimal _) as [q|e'|] eqn:Hq; try discriminate.
    injection Hr as ->. reflexivity.
  - intros ti w prices Hne Hp. rewrite transform_books_data_run.
    destruct (raw_records _) as [|r0 records]; [contradiction|].
    pose proof (normalize_columns (r0 :: records)) as Hcols.
    rewrite Hp in Hcols. rewrite Hcols.
    set (df := to_dict_records _ _ _) in *. exists df. cbn [fst snd xcom set_xcom].
    split; [reflexivity|]. split; [apply lookup_insert_eq|].
    split; [exact (traverse_length _ _ _ Hcols)|].
    split.
    + unfold series_map. rewrite map_map.
      exact (traverse_map_proj _ rating (fun r => rating_map !! raw_rating r)
               _ _ normalize_rating Hcols).
    + intros i r Hi.
      destruct (traverse_lookup _ _ _ i r Hcols Hi) as (item & Hitem & Hn).
      exists item. split; [exact Hitem | exact (normalize_rating _ _ Hn)].
Qed.

Lemma filter_all {A} (p : A -> bool) l :
  forallb p l = true -> List.filter p l = l.
Proof.
  induction l as [|x l IH]; simpl; [reflexivity|].
  intros H. apply andb_prop in H. destruct H as [Hx Hl].
  rewrite Hx, (IH Hl). reflexivity.
Qed.

Lemma forallb_filter {A} (p : A -> bool) l : forallb p (List.filter p l) = true.
Proof.
  induction l as [|x l IH]; simpl; [reflexivity|].
  destruct (p x) eqn:Hx; simpl; [rewrite Hx|]; exact IH.
Qed.

Lemma str_replace_idempotent s :
  str_replace unicode_decimal (str_replace unicode_decimal s)
  = str_replace unicode_decimal s.
Proof. unfold str_replace. apply filter_all, forallb_filter. Qed.

Lemma digit_not_dot c d : decimal unicode_decimal c = Some d -> (c =? dot)%N = false.
Proof.
  intros H. destruct (N.eqb_spec c dot) as [->|]; [|reflexivity].
  discriminate H.
Qed.

Lemma take_digits_no_dot s :
  forallb (digit_or_dot unicode_decimal) s = true ->
  List.filter (fun c => (c =? dot)%N) s = [] ->
  exists ds, take_digits unicode_decimal s = (ds, []) /\ length ds = length s.
Proof.
  induction s as [|c s IH]; simpl.
  - intros _ _. exists []. split; reflexivity.
  - intros H Hd. apply andb_prop in H. destruct H as [Hc Hs].
    unfold digit_or_dot in Hc. destruct (decimal unicode_decimal c) as [d|] eqn:Hdc.
    + rewrite (digit_not_dot c d Hdc) in Hd.
      destruct (IH Hs Hd) as (ds & -> & Hl).
      exists (d :: ds). split; [reflexivity | simpl; f_equal; exact Hl].
    + rewrite Hc in Hd. discriminate.
Qed.

Lemma take_digits_one_dot s :
  forallb (digit_or_dot unicode_decimal) s = true ->
  length (List.filter (fun c => (c =? dot)%N) s) = 1%nat ->
  exists ds b,
    take_digits unicode_decimal s = (ds, dot :: b)
    /\ forallb (digit_or_dot unicode_decimal) b = true
    /\ List.filter (fun c => (c =? dot)%N) b = []
    /\ length s = (length ds + 1 + length b)%nat.
Proof.
  induction s as [|c s IH]; simpl; [discriminate|].
  intros H Hd. apply andb_prop in H. destruct H as [Hc Hs].
  unfold digit_or_dot in Hc. destruct (decimal unicode_decimal c) as [d|] eqn:Hdc.
  - rewrite (digit_not_dot c d Hdc) in Hd.
    destruct (IH Hs Hd) as (ds & b & -> & Hb & Hnd & Hl).
    exists (d :: ds), b.
    split; [reflexivity|]. split; [exact Hb|]. split; [exact Hnd|]. simpl. lia.
  - rewrite Hc in Hd. simpl in Hd.
    apply N.eqb_eq in Hc. subst c.
    exists [], s.
    split; [reflexivity|]. split; [exact Hs|]. split; [|simpl; lia].
    destruct (List.filter _ s); [reflexivity | discriminate].
Qed.

Lemma py_float_numeric s :
  already_numeric unicode_decimal s = true -> s <> [dot] ->
  exists q, py_float unicode_decimal s = Ok q.
Proof.
  unfold already_numeric. intros H Hs. apply andb_prop in H.
  destruct H as [Hall Hone]. apply Nat.eqb_eq in Hone.
  destruct (take_digits_one_dot s Hall Hone) as (ip & b & Hip & Hb & Hnd & Hl).
  destruct (take_digits_no_dot b Hb Hnd) as (fp & Hfp & Hlf).
  unfold py_float. rewrite Hip, N.eqb_refl, Hfp.
  destruct ip as [|i ip]; [|eexists; reflexivity].
  destruct fp as [|f fp]; [|eexists; reflexivity].
  exfalso. apply Hs. simpl in Hip.
  destruct s as [|c s]; [discriminate|]. simpl in Hl, Hlf.
  destruct b; [|discriminate]. destruct s; [|simpl in Hl; lia].
  simpl in Hip. destruct (decimal unicode_decimal c); [discriminate|].
  injection Hip as ->. reflexivity.
Qed.

(** C9. On a price already written with digits and a single dot, the
    strip-and-parse of the task gives what parsing the string directly
    gives (a number, unless the string is the lone dot); so does it on a
    whole column of such prices, and stripping twice is stripping once. *)
Theorem price_formatting_idempotent s :
  already_numeric unicode_decimal s = true ->
  str_replace unicode_decimal s = s
  /\ py_float unicode_decimal (series_replace (str_replace unicode_decimal s))
     = py_float unicode_decimal s
  /\ (s <> [dot] ->
      exists q, py_float unicode_decimal s = Ok q
                /\ py_float unicode_decimal (series_replace (str_replace unicode_decimal s)) = Ok q)
  /\ (forall records,
        forallb (fun r => already_numeric unicode_decimal (raw_price r)) records = true ->
        price_column unicode_decimal records = astype_float unicode_decimal (map raw_price records))
  /\ (forall t,
        str_replace unicode_decimal (str_replace unicode_decimal t)
        = str_replace unicode_decimal t).
Proof.
  assert (Hcell : forall x, already_numeric unicode_decimal x = true ->
            str_replace unicode_decimal x = x
            /\ series_replace (str_replace unicode_decimal x) = x).
  { intros x Hx. unfold already_numeric in Hx. apply andb_prop in Hx.
    destruct Hx as [Hall Hone].
    assert (Hid : str_replace unicode_decimal x = x) by (apply filter_all; exact Hall).
    split; [exact Hid|]. rewrite Hid.
    destruct x; [discriminate Hone | reflexivity]. }
  intros Hs. destruct (Hcell s Hs) as [Hid Hrep].
  split; [exact Hid|]. split; [rewrite Hrep; reflexivity|].
  split; [|split].
  - intros Hne. destruct (py_float_numeric s Hs Hne) as [q Hq].
    exists q. rewrite Hrep. split; exact Hq.
  - intros records Hall. unfold price_column. f_equal.
    induction records as [|r records IH]; [reflexivity|].
    simpl in Hall. apply andb_prop in Hall. destruct Hall as [Hr Hrest].
    simpl. rewrite (proj2 (Hcell _ Hr)), (IH Hrest). reflexivity.
  - apply str_replace_idempotent.
Qed.

(** C10. The price handling is partial: a record whose price is "." or
    "1.2.3" leaves a residue that is not empty and does not parse, and the
    task raises ValueError without emitting anything; only the empty
    residue is read as zero. *)
Theorem price_handling_not_total ti w r :
  In r (raw_records (xcom w !! raw_slot)) ->
  raw_price r = u "." \/ raw_price r = u "1.2.3" ->
  str_replace unicode_decimal (raw_price r) <> []
  /\ py_float unicode_decimal
       (series_replace (str_replace unicode_decimal (raw_price r)))
     = Raise ValueError
  /\ transform_books_data unicode_decimal ti w = (Raise ValueError, w)
  /\ (forall s, str_replace unicode_decimal s = [] ->
        py_float unicode_decimal (series_replace (str_replace unicode_decimal s)) = Ok 0%Q).
Proof.
  intros Hin Hp.
  assert (Hres : str_replace unicode_decimal (raw_price r) <> []
                 /\ py_float unicode_decimal
                      (series_replace (str_replace unicode_decimal (raw_price r)))
                    = Raise ValueError).
  { destruct Hp as [-> | ->]; split; (discriminate || reflexivity). }
  destruct Hres as [Hne Hraise]. split; [exact Hne|]. split; [exact Hraise|].
  split.
  - rewrite transform_books_data_run.
    destruct (raw_records _) as [|r0 records] eqn:Hrec; [destruct Hin|].
    rewrite (traverse_raise_in (normalize unicode_decimal) (r0 :: records) r ValueError).
    + reflexivity.
    + exact Hin.
    + unfold normalize. rewrite spec_price_code, Hraise. reflexivity.
    + intros x e. apply normalize_raises.
    + apply normalize_no_fuel.
  - intros s Hs. rewrite Hs. reflexivity.
Qed.

End NormalizerProperties.

Lemma transform_books_data_per_item_witness :
  raw_records (xcom (with_raw [book_a] blank) !! raw_slot) <> []
  /\ fst (transform_books_data ascii_digits_only transform_ti
            (with_raw [book_a] blank)) = Ok PyNone
  /\ xcom (snd (transform_books_data ascii_digits_only transform_ti
                  (with_raw [book_a] blank))) !! cleaned_slot
     = Some (XClean [mkNorm (u "Book A") (25 # 2) (Some 3)]).
Proof.
  assert (H : raw_records (xcom (with_raw [book_a] blank) !! raw_slot) <> [])
    by (vm_compute; discriminate).
  split; [exact H|].
  destruct (transform_books_data_per_item ascii_digits_only transform_ti _ H)
    as [Hm _].
  assert (Ht : traverse (normalize ascii_digits_only)
                 (raw_records (xcom (with_raw [book_a] blank) !! raw_slot))
               = Ok [mkNorm (u "Book A") (25 # 2) (Some 3)])
    by (vm_compute; reflexivity).
  rewrite Ht in Hm. destruct Hm as (Heq & _). rewrite Heq.
  split; [reflexivity | vm_compute; reflexivity].
Defined.

Lemma rating_mapping_total_witness :
  rating_map !! u "Zero" = None
  /\ series_map rating_map [u "Three"; u "Zero"] !! 1%nat = Some None
  /\ fst (transform_books_data ascii_digits_only transform_ti
            (with_raw [mkRaw (u "A") (u "1.50") (u "Zero")] blank)) = Ok PyNone
  /\ (exists r,
        In r (raw_records
                (xcom (with_raw [mkRaw (u "A") (u ".") (u "One")] blank) !! raw_slot))
        /\ py_float ascii_digits_only
             (series_replace (str_replace ascii_digits_only (raw_price r)))
           = Raise ValueError)
  /\ exists df,
       xcom (snd (transform_books_data ascii_digits_only transform_ti
                    (with_raw [mkRaw (u "A") (u "1.50") (u "Three");
                               mkRaw (u "B") (u "2") (u "Zero")] blank)))
         !! (task_id transform_ti, "cleaned_book_data"%string) = Some (XClean df)
       /\ map rating df = [Some 3; None].
Proof.
  destruct (rating_mapping_total ascii_digits_only)
    as (_ & _ & _ & _ & _ & Hother & Hcell & Hok & Hraise & Hpushed).
  split; [apply Hother; discriminate|].
  split; [rewrite (Hcell _ 1%nat (u "Zero")); [|reflexivity];
          f_equal; apply Hother; discriminate|].
  split; [apply (Hok transform_ti _ [3 # 2]); vm_compute; reflexivity|].
  split; [apply (Hraise transform_ti _ ValueError); vm_compute; reflexivity|].
  destruct (Hpushed transform_ti
              (with_raw [mkRaw (u "A") (u "1.50") (u "Three");
                         mkRaw (u "B") (u "2") (u "Zero")] blank)
              [3 # 2; 2 # 1])
    as (df & _ & Hslot & _ & Hmap & _);
    [vm_compute; discriminate | vm_compute; reflexivity |].
  exists df. split; [exact Hslot|]. rewrite Hmap. vm_compute. reflexivity.
Defined.

Lemma price_formatting_idempotent_witness :
  already_numeric ascii_digits_only (u "12.50") = true
  /\ py_float ascii_digits_only
       (series_replace (str_replace ascii_digits_only (u "12.50")))
     = py_float ascii_digits_only (u "12.50")
  /\ py_float ascii_digits_only (u "12.50") = Ok (25 # 2).
Proof.
  split; [reflexivity|].
  destruct (price_formatting_idempotent ascii_digits_only (u "12.50"))
    as (_ & Hsame & _); [reflexivity|].
  split; [exact Hsame | reflexivity].
Defined.

Lemma price_handling_not_total_witness :
  In (mkRaw (u "A") (u "1.2.3") (u "One"))
     (raw_records (xcom (with_raw [book_a; mkRaw (u "A") (u "1.2.3") (u "One")] blank)
                   !! raw_slot))
  /\ transform_books_data ascii_digits_only transform_ti
       (with_raw [book_a; mkRaw (u "A") (u "1.2.3") (u "One")] blank)
     = (Raise ValueError,
        with_raw [book_a; mkRaw (u "A") (u "1.2.3") (u "One")] blank).
Proof.
  assert (Hin : In (mkRaw (u "A") (u "1.2.3") (u "One"))
     (raw_records (xcom (with_raw [book_a; mkRaw (u "A") (u "1.2.3") (u "One")] blank)
                   !! raw_slot))) by (vm_compute; right; left; reflexivity).
  split; [exact Hin|].
  destruct (price_handling_not_total ascii_digits_only transform_ti _ _ Hin)
    as (_ & _ & Hrun & _); [right; reflexivity | exact Hrun].
Defined.

(** ** The Persister *)

Lemma healthy_le n fl : (healthy n fl <= n)%nat.
Proof.
  revert fl. induction n as [|n IH]; intros fl; simpl; [lia|].
  destruct fl as [|[] fl]; [specialize (IH []) | | specialize (IH fl)]; lia.
Qed.

Lemma no_fault_healthy n fl : no_fault n fl = (healthy n fl =? n)%nat.
Proof.
  unfold no_fault. revert fl. induction n as [|n IH]; intros fl; [reflexivity|].
  destruct fl as [|[] fl]; simpl.
  - rewrite <- (IH []). destruct n; reflexivity.
  - reflexivity.
  - apply IH.
Qed.

Lemma no_fault_add n m fl :
  no_fault (n + m) fl = no_fault n fl && no_fault m (skipn n fl).
Proof.
  unfold no_fault. rewrite <- take_take_drop, forallb_app. reflexivity.
Qed.

Lemma no_fault_S n fl :
  no_fault (S n) fl = negb (fails_first fl) && no_fault n (tl fl).
Proof.
  unfold no_fault. destruct fl as [|[] fl]; try reflexivity.
  simpl. rewrite take_nil. reflexivity.
Qed.

Lemma server_call_run wb rq so xc bk seq nw cn fl lg :
  server_call (mkWorld wb rq so xc bk seq nw cn fl lg) =
  (if fails_first fl then Raise DatabaseError else Ok tt,
   mkWorld wb rq so xc bk seq nw cn (tl fl) lg).
Proof. destruct fl as [|[] fl]; reflexivity. Qed.

(** One [cur.execute] on an open connection: outside a transaction the
    statement sees the committed relation. *)
Lemma cur_execute_run wb rq so xc bk seq nw cn fl lg cur s t :
  cn !! cur = Some (mkConn false t) ->
  cur_execute cur s (mkWorld wb rq so xc bk seq nw cn fl lg) =
  if fails_first fl then
    (Raise DatabaseError, mkWorld wb rq so xc bk seq nw cn (tl fl) lg)
  else
    match run_stmt_pure s bk seq nw (match t with Some v => v | None => bk end) with
    | Some (view', seq') =>
      (Ok tt,
       mkWorld wb rq so xc bk seq' nw
         (<[cur := mkConn false (Some view')]> cn) (tl fl) (lg ++ [Execute s]))
    | None => (Raise DatabaseError, mkWorld wb rq so xc bk seq nw cn (tl fl) lg)
    end.
Proof.
  intros Hcur. unfold cur_execute, bind at 1, the_conn.
  cbn [conns]. rewrite Hcur. cbn [closed].
  unfold bind at 1. rewrite server_call_run.
  destruct (fails_first fl); [reflexivity|].
  destruct s, t as [[rows|]|], bk as [rows'|]; reflexivity.
Qed.

Lemma conn_commit_run wb rq so xc bk seq nw cn fl lg conn view :
  cn !! conn = Some (mkConn false (Some view)) ->
  conn_commit conn (mkWorld wb rq so xc bk seq nw cn fl lg) =
  if fails_first fl then
    (Raise DatabaseError, mkWorld wb rq so xc bk seq nw cn (tl fl) lg)
  else
    (Ok tt,
     mkWorld wb rq so xc view
       (match bk, view with
        | None, Some rows => seq + N.of_nat (length rows)
        | _, _ => seq
        end)%N nw
       (<[conn := mkConn false None]> cn) (tl fl) (lg ++ [Commit])).
Proof.
  intros Hconn. unfold conn_commit, bind at 1, the_conn.
  cbn [conns]. rewrite Hconn. cbn [closed].
  unfold bind at 1. rewrite server_call_run.
  destruct (fails_first fl); [reflexivity|].
  destruct bk, view; reflexivity.
Qed.

Lemma psycopg2_connect_run wb rq so xc bk seq nw cn fl lg :
  psycopg2_connect (mkWorld wb rq so xc bk seq nw cn fl lg) =
  if fails_first fl then
    (Raise DatabaseError, mkWorld wb rq so xc bk seq nw cn (tl fl) lg)
  else
    (Ok (length cn),
     mkWorld wb rq so xc bk seq nw (cn ++ [mkConn false None]) (tl fl)
       (lg ++ [Connect])).
Proof.
  unfold psycopg2_connect, bind at 1. rewrite server_call_run.
  destruct (fails_first fl); reflexivity.
Qed.

Lemma insert_last {A} (l : list A) x y : <[length l := y]> (l ++ [x]) = l ++ [y].
Proof.
  rewrite <- (Nat.add_0_r (length l)), insert_app_r. reflexivity.
Qed.

Lemma lookup_last {A} (l : list A) x : (l ++ [x]) !! length l = Some x.
Proof. apply list_lookup_middle. reflexivity. Qed.

Lemma new_rows_length seq t records :
  length (new_rows seq t records) = length records.
Proof.
  revert seq. induction records as [|r records IH]; intros seq; simpl;
    [reflexivity | f_equal; apply IH].
Qed.

(** The insert loop under any schedule: it performs the inserts that
    succeed before the first failure, and raises at that failure. *)
Lemma for_record_run records :
  forall wb rq so xc bk seq nw cn fl lg cur rows,
  cn !! cur = Some (mkConn false (Some (Some rows))) ->
  for_record cur records (mkWorld wb rq so xc bk seq nw cn fl lg) =
  let j := healthy (length records) fl in
  let done := (j =? length records)%nat in
  (if done then Ok tt else Raise DatabaseError,
   mkWorld wb rq so xc bk (seq_after bk seq j) nw
     (<[cur := mkConn false
                 (Some (Some (rows ++ new_rows (next_id bk seq rows) nw
                                        (firstn j records))))]> cn)
     (skipn (if done then j else S j) fl)
     (lg ++ map (fun r => Execute (insert_of r)) (firstn j records))).
Proof.
  induction records as [|r records IH];
    intros wb rq so xc bk seq nw cn fl lg cur rows Hcur.
  - simpl. unfold ret. rewrite !app_nil_r, (list_insert_id _ _ _ Hcur).
    destruct bk; cbn [seq_after N.of_nat]; rewrite ?N.add_0_r; reflexivity.
  - pose proof (lookup_lt_Some _ _ _ Hcur) as Hlt.
    cbn [for_record]. unfold bind at 1.
    rewrite (cur_execute_run _ _ _ _ _ _ _ _ _ _ _ _ (Some (Some rows)) Hcur).
    destruct (fails_first fl) eqn:Hf.
    + destruct fl as [|[] fl]; try discriminate Hf.
      cbn [length healthy Nat.eqb firstn new_rows map tl].
      rewrite !app_nil_r, (list_insert_id _ _ _ Hcur).
      destruct bk; cbn [seq_after N.of_nat]; rewrite ?N.add_0_r; reflexivity.
    + assert (Hh : healthy (length (r :: records)) fl
                   = S (healthy (length records) (tl fl))).
      { destruct fl as [|[] fl]; try discriminate Hf; reflexivity. }
      assert (Hd : forall k, skipn k (tl fl) = skipn (S k) fl).
      { intros k. destruct fl; [cbn [tl]; rewrite !drop_nil; reflexivity | reflexivity]. }
      rewrite Hh. cbn [length Nat.eqb firstn new_rows map].
      destruct bk as [committed|]; cbn [run_stmt_pure insert_of title price rating];
        rewrite (IH _ _ _ _ _ _ _ _ _ _ _ _ (list_lookup_insert_eq _ _ _ Hlt));
        cbn zeta; rewrite list_insert_insert_eq, <- !app_assoc; cbn [app];
        cbn [next_id seq_after].
      * replace (seq + 1 + N.of_nat (healthy (length records) (tl fl)))%N
          with (seq + N.of_nat (S (healthy (length records) (tl fl))))%N by lia.
        destruct (healthy (length records) (tl fl) =? length records)%nat;
          rewrite Hd; reflexivity.
      * replace (seq + N.of_nat (length (rows ++ [_])))%N
          with (seq + N.of_nat (length rows) + 1)%N
          by (rewrite length_app; simpl; lia).
        destruct (healthy (length records) (tl fl) =? length records)%nat;
          rewrite Hd; reflexivity.
Qed.

Lemma drop_S_tl {A} (l : list A) n : skipn (S n) l = tl (skipn n l).
Proof.
  revert l. induction n as [|n IH]; intros [|x l]; try reflexivity.
  simpl. rewrite <- IH. reflexivity.
Qed.

Lemma drop_tl {A} (l : list A) n : skipn n (tl l) = skipn (S n) l.
Proof. destruct l; [apply drop_nil | reflexivity]. Qed.

Lemma not_in_executes (c : DbCall) (records : list NormalizedItem) :
  (forall s, c <> Execute s) ->
  ~ In c (map (fun x => Execute (insert_of x)) records).
Proof.
  intros Hc Hin. apply in_map_iff in Hin. destruct Hin as (x & Hx & _).
  exact (Hc _ (eq_sym Hx)).
Qed.

(** The run from the insert loop on, on a connection whose transaction
    sees the table as the CREATE statement leaves it. *)
Lemma save_from_inserts wb rq so xc bk seq nw cn fl lg conn records :
  cn !! conn = Some (mkConn false (Some (Some (rows_of bk)))) ->
  if no_fault (length records + 1) fl then
    (for_record conn records ;;; conn_commit conn ;;; cur_close conn ;;;
     conn_close conn ;;; print (Loaded (len records)) ;;; ret PyNone)
      (mkWorld wb rq so xc bk seq nw cn fl lg) =
    (Ok PyNone,
     mkWorld wb rq (so ++ [Loaded (len records)]) xc
       (Some (rows_of bk ++ new_rows seq nw records))
       (seq + N.of_nat (length records)) nw
       (<[conn := mkConn true None]> cn)
       (skipn (length records + 1) fl)
       (lg ++ map (fun x => Execute (insert_of x)) records
           ++ [Commit; CursorClose; Close]))
  else
    exists w',
      (for_record conn records ;;; conn_commit conn ;;; cur_close conn ;;;
       conn_close conn ;;; print (Loaded (len records)) ;;; ret PyNone)
        (mkWorld wb rq so xc bk seq nw cn fl lg) = (Raise DatabaseError, w')
      /\ books w' = bk /\ stdout w' = so /\ xcom w' = xc
      /\ (exists t, conns w' = <[conn := mkConn false t]> cn)
      /\ exists l, db_log w' = lg ++ l /\ ~ In Commit l /\ ~ In Close l.
Proof.
  intros Hconn. pose proof (lookup_lt_Some _ _ _ Hconn) as Hlt.
  rewrite no_fault_add, no_fault_healthy, (no_fault_S 0).
  unfold no_fault at 1. cbn [firstn forallb]. rewrite andb_true_r.
  pose proof (for_record_run records wb rq so xc bk seq nw cn fl lg conn
                (rows_of bk) Hconn) as Hloop.
  cbn zeta in Hloop.
  destruct (healthy (length records) fl =? length records)%nat eqn:Hh;
    [apply Nat.eqb_eq in Hh; rewrite Hh, firstn_all in Hloop;
     destruct (fails_first (skipn (length records) fl)) eqn:Hf|];
    cbn [andb negb].
  - eexists. split.
    + unfold bind at 1. rewrite Hloop. unfold bind at 1.
      rewrite (conn_commit_run _ _ _ _ _ _ _ _ _ _ _ _
                 (list_lookup_insert_eq _ _ _ Hlt)), Hf.
      reflexivity.
    + cbn [books stdout xcom conns db_log].
      repeat split; [eexists; reflexivity|].
      eexists. split; [reflexivity|].
      split; apply not_in_executes; discriminate.
  - unfold bind at 1. rewrite Hloop. unfold bind at 1.
    rewrite (conn_commit_run _ _ _ _ _ _ _ _ _ _ _ _
               (list_lookup_insert_eq _ _ _ Hlt)), Hf.
    unfold cur_close, conn_close, logged, print, bind, ret.
    cbn [db_log conns stdout set_db_log set_conns set_stdout web requested
         xcom books books_id_seq now faults].
    rewrite !list_insert_insert_eq, <- !app_assoc. cbn [app].
    rewrite Nat.add_1_r, <- drop_S_tl.
    destruct bk as [committed|]; cbn [rows_of next_id seq_after app].
    + reflexivity.
    + rewrite new_rows_length, N.add_0_r. reflexivity.
  - eexists. split.
    + unfold bind at 1. rewrite Hloop. reflexivity.
    + cbn [books stdout xcom conns db_log].
      repeat split; [eexists; reflexivity|].
      eexists. split; [reflexivity|].
      split; apply not_in_executes; discriminate.
Qed.

Lemma create_table_run committed seq t bk :
  run_stmt_pure CreateTableIfNotExists committed seq t bk
  = Some (Some (rows_of bk), seq).
Proof. destruct bk; reflexivity. Qed.

(** A whole run on a non-empty input, for every schedule: with no failure
    among its calls (connect, create, one insert per record, commit) it
    commits the table with the new rows and closes the connection;
    otherwise it raises at the first failure, before any commit or close. *)
Lemma save_to_postgres_run ti wb rq so xc bk seq nw cn fl lg r rs :
  cleaned_records (xc !! cleaned_slot) = r :: rs ->
  if no_fault (length (r :: rs) + 3) fl then
    save_to_postgres ti (mkWorld wb rq so xc bk seq nw cn fl lg) =
    (Ok PyNone,
     mkWorld wb rq (so ++ [Loaded (len (r :: rs))]) xc
       (Some (rows_of bk ++ new_rows seq nw (r :: rs)))
       (seq + N.of_nat (length (r :: rs))) nw
       (cn ++ [mkConn true None])
       (skipn (length (r :: rs) + 3) fl)
       (lg ++ [Connect; Execute CreateTableIfNotExists]
           ++ map (fun x => Execute (insert_of x)) (r :: rs)
           ++ [Commit; CursorClose; Close]))
  else
    exists w',
      save_to_postgres ti (mkWorld wb rq so xc bk seq nw cn fl lg)
        = (Raise DatabaseError, w')
      /\ books w' = bk /\ stdout w' = so /\ xcom w' = xc
      /\ (conns w' = cn \/ exists t, conns w' = cn ++ [mkConn false t])
      /\ exists l, db_log w' = lg ++ l /\ ~ In Commit l /\ ~ In Close l.
Proof.
  intros Hrec. set (records := r :: rs) in *.
  set (W := mkWorld wb rq so xc bk seq nw cn fl lg).
  assert (Hpull : save_to_postgres ti W =
            (conn <- psycopg2_connect ;;
             cur <- conn_cursor conn ;;
             cur_execute cur CreateTableIfNotExists ;;;
             for_record cur records ;;;
             conn_commit conn ;;;
             cur_close cur ;;;
             conn_close conn ;;;
             print (Loaded (len records)) ;;;
             ret PyNone) W).
  { unfold save_to_postgres, bind at 1, xcom_pull, W. cbn [xcom].
    change ("transform_books_data"%string, "cleaned_book_data"%string)
      with cleaned_slot.
    rewrite Hrec. reflexivity. }
  rewrite Hpull. clear Hpull. unfold W. clear W.
  replace (length records + 3)%nat with (S (S (length records + 1))) by lia.
  rewrite no_fault_S.
  destruct (fails_first fl) eqn:Hf1; cbn [negb andb].
  { eexists. split.
    - unfold bind at 1. rewrite psycopg2_connect_run, Hf1. reflexivity.
    - cbn [books stdout xcom conns db_log].
      repeat split; [left; reflexivity|].
      exists []. rewrite app_nil_r. repeat split; intros []. }
  rewrite no_fault_S.
  destruct (fails_first (tl fl)) eqn:Hf2; cbn [negb andb].
  { eexists. split.
    - unfold bind at 1. rewrite psycopg2_connect_run, Hf1.
      unfold bind at 1, conn_cursor, bind at 1, the_conn. cbn [conns].
      rewrite lookup_last. cbn [closed]. unfold ret at 1. unfold bind at 1.
      rewrite (cur_execute_run _ _ _ _ _ _ _ _ _ _ _ _ _ (lookup_last _ _)), Hf2.
      reflexivity.
    - cbn [books stdout xcom conns db_log].
      repeat split; [right; eexists; reflexivity|].
      exists [Connect]. repeat split; intros [H|[]]; discriminate H. }
  pose proof (save_from_inserts wb rq so xc bk seq nw
                (cn ++ [mkConn false (Some (Some (rows_of bk)))])
                (tl (tl fl)) ((lg ++ [Connect]) ++ [Execute CreateTableIfNotExists])
                (length cn) records (lookup_last _ _)) as Htail.
  assert (Hhead : forall tail : nat -> nat -> M PyVal,
            (conn <- psycopg2_connect ;;
             cur <- conn_cursor conn ;;
             cur_execute cur CreateTableIfNotExists ;;;
             tail conn cur) (mkWorld wb rq so xc bk seq nw cn fl lg)
            = tail (length cn) (length cn)
                (mkWorld wb rq so xc bk seq nw
                   (cn ++ [mkConn false (Some (Some (rows_of bk)))])
                   (tl (tl fl))
                   ((lg ++ [Connect]) ++ [Execute CreateTableIfNotExists]))).
  { intros tail. unfold bind at 1. rewrite psycopg2_connect_run, Hf1.
    unfold bind at 1, conn_cursor, bind at 1, the_conn. cbn [conns].
    rewrite lookup_last. cbn [closed]. unfold ret at 1. unfold bind at 1.
    rewrite (cur_execute_run _ _ _ _ _ _ _ _ _ _ _ _ _ (lookup_last _ _)), Hf2.
    rewrite create_table_run, insert_last. reflexivity. }
  rewrite (Hhead (fun conn cur =>
             for_record cur records ;;; conn_commit conn ;;; cur_close cur ;;;
             conn_close conn ;;; print (Loaded (len records)) ;;; ret PyNone)).
  clear Hhead.
  destruct (no_fault (length records + 1) (tl (tl fl))).
  - rewrite Htail, insert_last, <- !app_assoc, <- !drop_tl. reflexivity.
  - destruct Htail as (w' & Hrun & Hb & Hs & Hx & (t & Hc) & (l & Hl & Hnc & Hncl)).
    exists w'. split; [exact Hrun|].
    split; [exact Hb|]. split; [exact Hs|]. split; [exact Hx|]. split.
    + right. exists t. rewrite Hc, insert_last. reflexivity.
    + exists (Connect :: Execute CreateTableIfNotExists :: l).
      rewrite Hl, <- !app_assoc. split; [reflexivity|].
      split; intros [H|[H|H]]; try discriminate H; contradiction.
Qed.

Lemma save_to_postgres_cases ti w r rs :
  cleaned_records (xcom w !! cleaned_slot) = r :: rs ->
  if no_fault (length (r :: rs) + 3) (faults w) then
    save_to_postgres ti w =
    (Ok PyNone,
     mkWorld (web w) (requested w) (stdout w ++ [Loaded (len (r :: rs))]) (xcom w)
       (Some (rows_of (books w) ++ new_rows (books_id_seq w) (now w) (r :: rs)))
       (books_id_seq w + N.of_nat (length (r :: rs))) (now w)
       (conns w ++ [mkConn true None])
       (skipn (length (r :: rs) + 3) (faults w))
       (db_log w ++ [Connect; Execute CreateTableIfNotExists]
           ++ map (fun x => Execute (insert_of x)) (r :: rs)
           ++ [Commit; CursorClose; Close]))
  else
    exists w',
      save_to_postgres ti w = (Raise DatabaseError, w')
      /\ books w' = books w /\ stdout w' = stdout w /\ xcom w' = xcom w
      /\ (conns w' = conns w \/ exists t, conns w' = conns w ++ [mkConn false t])
      /\ exists l, db_log w' = db_log w ++ l /\ ~ In Commit l /\ ~ In Close l.
Proof. destruct w. apply save_to_postgres_run. Qed.

Lemma save_to_postgres_empty ti w :
  cleaned_records (xcom w !! cleaned_slot) = [] ->
  save_to_postgres ti w = (Ok PyNone, set_stdout (stdout w ++ [NoDataToLoad]) w).
Proof.
  intros Hrec. unfold save_to_postgres, bind at 1, xcom_pull.
  change ("transform_books_data"%string, "cleaned_book_data"%string)
    with cleaned_slot.
  rewrite Hrec. reflexivity.
Qed.

Lemma calls_since_app w w' l :
  db_log w' = db_log w ++ l -> calls_since w w' = l.
Proof. intros H. unfold calls_since. rewrite H. apply drop_app_length. Qed.

Lemma new_rows_tuples seq t records :
  map row_tuple (new_rows seq t records) = map item_tuple records.
Proof.
  revert seq. induction records as [|r records IH]; intros seq; simpl;
    [reflexivity | f_equal; apply IH].
Qed.

(** C2, as stated, fails: with one record on the bus and a server that
    accepts the connection and rejects the first statement, the task
    exits with the error and the connection it opened is still open. *)
Lemma save_to_postgres_leaves_connection_open :
  conns (one_book_world [false; true]) = []
  /\ fst (save_to_postgres save_ti (one_book_world [false; true]))
     = Raise DatabaseError
  /\ conns (snd (save_to_postgres save_ti (one_book_world [false; true])))
     = [mkConn false None]
  /\ ~ (forall c,
         In c (conns (snd (save_to_postgres save_ti (one_book_world [false; true])))) ->
         closed c = true).
Proof.
  assert (Hc : conns (snd (save_to_postgres save_ti (one_book_world [false; true])))
               = [mkConn false None]) by (vm_compute; reflexivity).
  split; [reflexivity|]. split; [vm_compute; reflexivity|]. split; [exact Hc|].
  intros H. specialize (H (mkConn false None)). rewrite Hc in H.
  discriminate H. left. reflexivity.
Qed.

(** C2, amended. The connection is closed on the path without error: when
    every server call of the run succeeds, the connection opened at the
    start is closed when the task returns. When a call fails the task exits
    with the error without closing: either nothing was opened (the connect
    failed) or the opened connection is left open. On empty or absent
    input no connection is opened. *)
Theorem connection_closed_on_success ti w :
  match cleaned_records (xcom w !! cleaned_slot) with
  | [] =>
    fst (save_to_postgres ti w) = Ok PyNone
    /\ conns (snd (save_to_postgres ti w)) = conns w
  | (_ :: _) as records =>
    if no_fault (length records + 3) (faults w) then
      fst (save_to_postgres ti w) = Ok PyNone
      /\ conns (snd (save_to_postgres ti w)) = conns w ++ [mkConn true None]
    else
      fst (save_to_postgres ti w) = Raise DatabaseError
      /\ (conns (snd (save_to_postgres ti w)) = conns w
          \/ exists t, conns (snd (save_to_postgres ti w)) = conns w ++ [mkConn false t])
      /\ ~ In Close (calls_since w (snd (save_to_postgres ti w)))
  end.
Proof.
  destruct (cleaned_records _) as [|r rs] eqn:Hrec.
  - rewrite (save_to_postgres_empty ti w Hrec). split; reflexivity.
  - pose proof (save_to_postgres_cases ti w r rs Hrec) as Hrun.
    cbv beta iota zeta. destruct (no_fault _ _).
    + rewrite Hrun. split; reflexivity.
    + destruct Hrun as (w' & -> & _ & _ & _ & Hc & (l & Hl & _ & Hclose)).
      split; [reflexivity|]. split; [exact Hc|].
      cbn [snd]. rewrite (calls_since_app w w' l Hl). exact Hclose.
Qed.

(** C3, as stated, fails: the task returns None, not the count, with one
    record on the bus as with none. *)
Lemma save_to_postgres_returns_none :
  fst (save_to_postgres save_ti (one_book_world [])) = Ok PyNone
  /\ fst (save_to_postgres save_ti (one_book_world [])) <> Ok (PyInt 1)
  /\ fst (save_to_postgres save_ti blank) = Ok PyNone
  /\ fst (save_to_postgres save_ti blank) <> Ok (PyInt 0).
Proof.
  assert (H1 : fst (save_to_postgres save_ti (one_book_world [])) = Ok PyNone)
    by (vm_compute; reflexivity).
  assert (H0 : fst (save_to_postgres save_ti blank) = Ok PyNone)
    by (vm_compute; reflexivity).
  rewrite H1, H0. repeat split; discriminate.
Qed.

(** C3, amended. The task returns no value on any path and reports the
    count in its log line: on a non-empty input of N records, when every
    server call succeeds, it writes N rows and logs "Loaded N records";
    when a call fails it raises; on empty or absent input it logs "No data
    to load" and leaves the database as it was. *)
Theorem persister_logs_count ti w :
  (forall v, fst (save_to_postgres ti w) = Ok v -> v = PyNone)
  /\ match cleaned_records (xcom w !! cleaned_slot) with
     | [] =>
       save_to_postgres ti w
         = (Ok PyNone, set_stdout (stdout w ++ [NoDataToLoad]) w)
       /\ books (snd (save_to_postgres ti w)) = books w
       /\ conns (snd (save_to_postgres ti w)) = conns w
       /\ db_log (snd (save_to_postgres ti w)) = db_log w
       /\ faults (snd (save_to_postgres ti w)) = faults w
     | (_ :: _) as records =>
       if no_fault (length records + 3) (faults w) then
         fst (save_to_postgres ti w) = Ok PyNone
         /\ stdout (snd (save_to_postgres ti w)) = stdout w ++ [Loaded (len records)]
         /\ length (rows_of (books (snd (save_to_postgres ti w))))
            = (length (rows_of (books w)) + length records)%nat
       else fst (save_to_postgres ti w) = Raise DatabaseError
     end.
Proof.
  destruct (cleaned_records _) as [|r rs] eqn:Hrec.
  - rewrite (save_to_postgres_empty ti w Hrec). cbn [fst snd].
    split; [intros v [= <-]; reflexivity|]. repeat split.
  - pose proof (save_to_postgres_cases ti w r rs Hrec) as Hrun.
    cbv beta iota zeta. destruct (no_fault _ _).
    + rewrite Hrun. cbn [fst snd stdout books rows_of].
      split; [intros v [= <-]; reflexivity|].
      split; [reflexivity|]. split; [reflexivity|].
      rewrite length_app, new_rows_length. reflexivity.
    + destruct Hrun as (w' & -> & _). cbn [fst].
      split; [discriminate | reflexivity].
Qed.

(** C6. A run whose server calls all succeed appends one row per record,
    with the records' (title, price, rating) in the same order, after the
    rows already there, which it leaves as they were; a second such run on
    the same records appends them again, so the table has grown by 2N
    rows. *)
Theorem persist_appends_rows ti w :
  no_fault (length (cleaned_records (xcom w !! cleaned_slot)) + 3) (faults w) = true ->
  exists new,
    fst (save_to_postgres ti w) = Ok PyNone
    /\ rows_of (books (snd (save_to_postgres ti w))) = rows_of (books w) ++ new
    /\ length new = length (cleaned_records (xcom w !! cleaned_slot))
    /\ map row_tuple new = map item_tuple (cleaned_records (xcom w !! cleaned_slot))
    /\ (no_fault (length (cleaned_records (xcom w !! cleaned_slot)) + 3)
          (faults (snd (save_to_postgres ti w))) = true ->
        exists again,
          fst (save_to_postgres ti (snd (save_to_postgres ti w))) = Ok PyNone
          /\ rows_of (books (snd (save_to_postgres ti (snd (save_to_postgres ti w)))))
             = rows_of (books w) ++ new ++ again
          /\ map row_tuple again
             = map item_tuple (cleaned_records (xcom w !! cleaned_slot))
          /\ length (rows_of (books (snd (save_to_postgres ti (snd (save_to_postgres ti w))))))
             = (length (rows_of (books w))
                + 2 * length (cleaned_records (xcom w !! cleaned_slot)))%nat).
Proof.
  assert (Hone : forall w0,
            no_fault (length (cleaned_records (xcom w0 !! cleaned_slot)) + 3)
              (faults w0) = true ->
            exists new,
              fst (save_to_postgres ti w0) = Ok PyNone
              /\ xcom (snd (save_to_postgres ti w0)) = xcom w0
              /\ rows_of (books (snd (save_to_postgres ti w0)))
                 = rows_of (books w0) ++ new
              /\ length new = length (cleaned_records (xcom w0 !! cleaned_slot))
              /\ map row_tuple new
                 = map item_tuple (cleaned_records (xcom w0 !! cleaned_slot))).
  { intros w0 Hok. destruct (cleaned_records _) as [|r rs] eqn:Hrec.
    - rewrite (save_to_postgres_empty ti w0 Hrec). exists [].
      cbn [fst snd]. rewrite app_nil_r. repeat split.
    - pose proof (save_to_postgres_cases ti w0 r rs Hrec) as Hrun.
      rewrite Hok in Hrun. rewrite Hrun. cbn [fst snd xcom books rows_of].
      exists (new_rows (books_id_seq w0) (now w0) (r :: rs)).
      split; [reflexivity|]. split; [reflexivity|]. split; [reflexivity|].
      split; [apply new_rows_length | apply new_rows_tuples]. }
  intros Hok. destruct (Hone w Hok) as (new & Ho & Hx & Hrows & Hlen & Htup).
  exists new. split; [exact Ho|]. split; [exact Hrows|].
  split; [exact Hlen|]. split; [exact Htup|].
  intros Hok2. rewrite <- Hx in Hok2.
  destruct (Hone _ Hok2) as (again & Ho2 & _ & Hrows2 & Hlen2 & Htup2).
  rewrite Hx in Hlen2, Htup2.
  exists again. split; [exact Ho2|].
  rewrite Hrows2, Hrows, <- app_assoc. split; [reflexivity|].
  split; [exact Htup2|]. rewrite !length_app. lia.
Qed.

Lemma persist_appends_rows_witness :
  no_fault (length (cleaned_records (xcom (one_book_world []) !! cleaned_slot)) + 3)
    (faults (one_book_world [])) = true
  /\ (exists new,
        rows_of (books (snd (save_to_postgres save_ti (one_book_world []))))
        = rows_of (books (one_book_world [])) ++ new
        /\ map row_tuple new = [item_tuple one_book])
  /\ length (rows_of (books (snd (save_to_postgres save_ti
                (snd (save_to_postgres save_ti (one_book_world []))))))) = 2%nat.
Proof.
  assert (H : no_fault
                (length (cleaned_records (xcom (one_book_world []) !! cleaned_slot)) + 3)
                (faults (one_book_world [])) = true) by (vm_compute; reflexivity).
  split; [exact H|].
  destruct (persist_appends_rows save_ti (one_book_world []) H)
    as (new & _ & Hrows & _ & Htup & Htwice).
  split; [exists new; split; [exact Hrows | exact Htup]|].
  destruct Htwice as (again & _ & _ & _ & Hlen); [vm_compute; reflexivity|].
  exact Hlen.
Defined.

(** C7. On a non-empty input the task commits exactly once, after the
    create-table statement and every insert, when all its server calls
    succeed. When one of them fails the error propagates, nothing has been
    committed and the table is as it was before the run. *)
Theorem commit_once_or_nothing ti w :
  cleaned_records (xcom w !! cleaned_slot) <> [] ->
  if no_fault (length (cleaned_records (xcom w !! cleaned_slot)) + 3) (faults w) then
    fst (save_to_postgres ti w) = Ok PyNone
    /\ calls_since w (snd (save_to_postgres ti w))
       = [Connect; Execute CreateTableIfNotExists]
         ++ map (fun x => Execute (insert_of x))
              (cleaned_records (xcom w !! cleaned_slot))
         ++ [Commit; CursorClose; Close]
    /\ rows_of (books (snd (save_to_postgres ti w)))
       = rows_of (books w)
         ++ new_rows (books_id_seq w) (now w)
              (cleaned_records (xcom w !! cleaned_slot))
  else
    fst (save_to_postgres ti w) = Raise DatabaseError
    /\ books (snd (save_to_postgres ti w)) = books w
    /\ ~ In Commit (calls_since w (snd (save_to_postgres ti w))).
Proof.
  intros Hne. destruct (cleaned_records _) as [|r rs] eqn:Hrec; [contradiction|].
  pose proof (save_to_postgres_cases ti w r rs Hrec) as Hrun.
  destruct (no_fault _ _).
  - rewrite Hrun. cbn [fst snd books rows_of].
    split; [reflexivity|]. split; [|reflexivity].
    apply calls_since_app. reflexivity.
  - destruct Hrun as (w' & -> & Hb & _ & _ & _ & (l & Hl & Hcommit & _)).
    cbn [fst snd]. split; [reflexivity|]. split; [exact Hb|].
    rewrite (calls_since_app w w' l Hl). exact Hcommit.
Qed.

Lemma commit_once_or_nothing_witness :
  cleaned_records (xcom (one_book_world [false; false; true]) !! cleaned_slot) <> []
  /\ fst (save_to_postgres save_ti (one_book_world [false; false; true]))
     = Raise DatabaseError
  /\ books (snd (save_to_postgres save_ti (one_book_world [false; false; true])))
     = books (one_book_world [false; false; true]).
Proof.
  assert (H : cleaned_records
                (xcom (one_book_world [false; false; true]) !! cleaned_slot) <> [])
    by (vm_compute; discriminate).
  split; [exact H|].
  pose proof (commit_once_or_nothing save_ti _ H) as Hc.
  replace (no_fault _ _) with false in Hc by (vm_compute; reflexivity).
  destruct Hc as (Ho & Hb & _). split; [exact Ho | exact Hb].
Defined.

(** ** A run of the whole DAG *)

(** On a site with one listing page of three books followed by a 404, the
    three tasks leave three rows in a table that did not exist, and the
    connection closed. *)
Example books_pipeline_dag_run :
  let w := snd (books_pipeline_dag ascii_digits_only (on_site (short_site velvet_pod))) in
  fst (books_pipeline_dag ascii_digits_only (on_site (short_site velvet_pod))) = Ok PyNone
  /\ stdout w = [FailedToFetch 2; Scraped 3;
                 CleanedSample
                   [mkNorm (u "A Light in the Attic") (5177 # 100) (Some 3);
                    mkNorm (u "Tipping the Velvet") (2687 # 50) (Some 1);
                    mkNorm (u "Tipping the Velvet") (2687 # 50) (Some 1)];
                 Loaded 3]
  /\ map row_tuple (rows_of (books w))
     = [(u "A Light in the Attic", 5177 # 100, Some 3);
        (u "Tipping the Velvet", 2687 # 50, Some 1);
        (u "Tipping the Velvet", 2687 # 50, Some 1)]
  /\ map id (rows_of (books w)) = [1; 2; 3]%N
  /\ conns w = [mkConn true None].
Proof. vm_compute. repeat split. Qed.

(** * Further properties of the tasks *)

(** ** Frames *)

Lemma keeps_ret {A} (R : World -> World -> Prop) (a : A) :
  (forall w, R w w) -> keeps R (ret a).
Proof. intros Hrefl w. apply Hrefl. Qed.

Lemma keeps_lift {A} (R : World -> World -> Prop) (o : Outcome A) :
  (forall w, R w w) -> keeps R (lift o).
Proof. intros Hrefl w. apply Hrefl. Qed.

Lemma keeps_bind {A B} (R : World -> World -> Prop) (m : M A) (k : A -> M B) :
  (forall w1 w2 w3, R w1 w2 -> R w2 w3 -> R w1 w3) ->
  keeps R m -> (forall a, keeps R (k a)) -> keeps R (bind m k).
Proof.
  intros Htrans Hm Hk w. unfold bind. specialize (Hm w).
  destruct (m w) as [[a|e|] w1]; simpl in *; try exact Hm.
  exact (Htrans _ _ _ Hm (Hk a w1)).
Qed.

Lemma same_database_refl w : same_database w w.
Proof. repeat split. Qed.

Lemma same_database_trans w1 w2 w3 :
  same_database w1 w2 -> same_database w2 w3 -> same_database w1 w3.
Proof.
  unfold same_database. intros (? & ? & ? & ? & ?) (? & ? & ? & ? & ?).
  repeat split; congruence.
Qed.

Lemma same_site_refl w : same_site w w.
Proof. split; reflexivity. Qed.

Lemma same_site_trans w1 w2 w3 :
  same_site w1 w2 -> same_site w2 w3 -> same_site w1 w3.
Proof. unfold same_site. intros (? & ?) (? & ?). split; congruence. Qed.

Lemma off_the_bus_refl w : off_the_bus w w.
Proof. unfold off_the_bus. repeat split. lia. Qed.

Lemma off_the_bus_trans w1 w2 w3 :
  off_the_bus w1 w2 -> off_the_bus w2 w3 -> off_the_bus w1 w3.
Proof.
  unfold off_the_bus. intros (? & ? & ? & ? & ?) (? & ? & ? & ? & ?).
  repeat split; try congruence. lia.
Qed.

(** ** [str.strip], again *)

Lemma lstrip_fixed s :
  (forall c, head s = Some c -> isspace c = false) -> lstrip s = s.
Proof.
  destruct s as [|c s]; [reflexivity|]. intros H. simpl.
  rewrite (H c eq_refl). reflexivity.
Qed.

Lemma rstrip_fixed s :
  (forall c, last s = Some c -> isspace c = false) -> rstrip s = s.
Proof.
  intros H. unfold rstrip. rewrite lstrip_fixed.
  - apply rev_involutive.
  - intros c Hc. apply H. rewrite <- head_rev. exact Hc.
Qed.

(** Stripping a stripped string changes nothing. *)
Lemma strip_idempotent s : strip (strip s) = strip s.
Proof.
  destruct (strip_trimmed s) as (l & r & _ & _ & _ & Hhead & Hlast).
  unfold strip at 1. rewrite (lstrip_fixed _ Hhead). apply rstrip_fixed, Hlast.
Qed.

(** ** The Collector under any site *)

Lemma extract_raises container e :
  extract container = Raise e -> e = MarkupError \/ e = IndexError.
Proof.
  unfold extract. destruct (h3_a_title container); [|intros [= <-]; left; reflexivity].
  destruct (price_color_text container); [|intros [= <-]; left; reflexivity].
  destruct (p_class container) as [class|]; [|intros [= <-]; left; reflexivity].
  destruct (class !! 1%nat); [discriminate | intros [= <-]; right; reflexivity].
Qed.

Lemma extract_stripped container r :
  extract container = Ok r -> price_stripped r.
Proof.
  unfold extract, price_stripped.
  destruct (h3_a_title container); [|discriminate].
  destruct (price_color_text container); [|discriminate].
  destruct (p_class container) as [class|]; [|discriminate].
  destruct (class !! 1%nat); [|discriminate].
  intros [= <-]. simpl. apply strip_idempotent.
Qed.

Lemma traverse_Forall {A B} (f : A -> Outcome B) (P : B -> Prop) l bs :
  (forall a b, f a = Ok b -> P b) -> traverse f l = Ok bs -> Forall P bs.
Proof.
  intros Hf. revert bs. induction l as [|a l IH]; intros bs; simpl.
  - intros [= <-]. constructor.
  - destruct (f a) as [b| |] eqn:Ha; try discriminate.
    destruct (traverse f l) as [bs'| |]; try discriminate.
    intros [= <-]. constructor; [exact (Hf a b Ha) | apply IH; reflexivity].
Qed.

(** The [for] loop on an accumulator short of the target: it appends
    well read records and does not pass the target. *)
Lemma for_container_result num_books containers books :
  len books < num_books ->
  match for_container num_books containers books with
  | Ok books' =>
    exists items, books' = books ++ items /\ len books' <= num_books
                  /\ Forall price_stripped items
  | Raise e => e = MarkupError \/ e = IndexError
  | Fuel => False
  end.
Proof.
  intros Hlt. rewrite (for_container_firstn _ _ _ Hlt).
  destruct (traverse extract _) as [items|e|] eqn:Ht.
  - exists items. split; [reflexivity|]. split.
    + apply traverse_length in Ht. rewrite length_take in Ht.
      rewrite len_app. unfold len in *. lia.
    + exact (traverse_Forall _ _ _ _ extract_stripped Ht).
  - apply traverse_raise in Ht. destruct Ht as (c & _ & Hc).
    exact (extract_raises _ _ Hc).
  - exact (traverse_no_fuel _ _ extract_no_fuel Ht).
Qed.

Lemma pages_app p j k : pages p (j + k) = pages p j ++ pages (p + Z.of_nat j) k.
Proof.
  revert p. induction j as [|j IH]; intros p.
  - simpl. rewrite Z.add_0_r. reflexivity.
  - cbn [Nat.add pages app]. rewrite IH. do 3 f_equal. lia.
Qed.

(** The [while] loop under any site and from any state. *)
Lemma while_books_run fuel :
  forall num_books books page w,
  exists j, (j <= fuel)%nat
    /\ requested (snd (while_books fuel num_books books page w))
       = requested w ++ pages page j
    /\ loop_frame w (snd (while_books fuel num_books books page w))
    /\ match fst (while_books fuel num_books books page w) with
       | Ok books' =>
         (exists items, books' = books ++ items /\ Forall price_stripped items)
         /\ len books' <= Z.max num_books (len books)
         /\ (stdout (snd (while_books fuel num_books books page w)) = stdout w
             \/ exists warning,
                  stdout (snd (while_books fuel num_books books page w))
                  = stdout w ++ [warning])
       | Raise e =>
         stdout (snd (while_books fuel num_books books page w)) = stdout w
         /\ (e = ConnectionError \/ e = MarkupError \/ e = IndexError)
       | Fuel => True
       end.
Proof.
  assert (Hstay : forall num_books books page w (o : Outcome (list RawItem)),
            match o with
            | Ok books' => books' = books
            | Raise _ => False
            | Fuel => True
            end ->
            exists j, (j <= 0)%nat
              /\ requested w = requested w ++ pages page j
              /\ loop_frame w w
              /\ match o with
                 | Ok books' =>
                   (exists items, books' = books ++ items /\ Forall price_stripped items)
                   /\ len books' <= Z.max num_books (len books)
                   /\ (stdout w = stdout w
                       \/ exists warning, stdout w = stdout w ++ [warning])
                 | Raise e =>
                   stdout w = stdout w
                   /\ (e = ConnectionError \/ e = MarkupError \/ e = IndexError)
                 | Fuel => True
                 end).
  { intros num_books books page w o Ho. exists O. split; [lia|].
    split; [simpl; rewrite app_nil_r; reflexivity|].
    split; [repeat split|].
    destruct o as [books'| |]; [subst books' | contradiction | exact I].
    split; [exists []; rewrite app_nil_r; split; [reflexivity | constructor]|].
    split; [lia | left; reflexivity]. }
  induction fuel as [|fuel IH]; intros num_books books page w.
  - destruct (Z.le_gt_cases num_books (len books)) as [Hdone|Hb].
    + rewrite while_books_done by exact Hdone.
      apply (Hstay num_books books page w (Ok books)). reflexivity.
    + assert (Hrun : while_books 0 num_books books page w = (Fuel, w)).
      { apply Z.ltb_lt in Hb. simpl. rewrite Hb. reflexivity. }
      rewrite Hrun. apply (Hstay num_books books page w Fuel). exact I.
  - destruct (Z.le_gt_cases num_books (len books)) as [Hdone|Hb].
    + rewrite while_books_done by exact Hdone.
      destruct (Hstay num_books books page w (Ok books) eq_refl) as (j & Hj & Hrest).
      exists j. split; [lia | exact Hrest].
    + rewrite (while_books_step _ _ _ _ _ Hb). cbn zeta.
      destruct (web w page) as [response|].
      2:{ exists 1%nat. split; [lia|]. cbn [fst snd].
          split; [reflexivity|]. split; [repeat split|].
          split; [reflexivity | left; reflexivity]. }
      destruct (end_of_walk page response) as [warning|].
      { exists 1%nat. split; [lia|]. cbn [fst snd].
        split; [reflexivity|]. split; [repeat split|].
        split; [exists []; rewrite app_nil_r; split; [reflexivity | constructor]|].
        split; [lia | right; exists warning; reflexivity]. }
      pose proof (for_container_result num_books (product_pod response) books Hb)
        as Hfor.
      destruct (for_container num_books (product_pod response) books)
        as [books'|e|]; [| | contradiction].
      * destruct Hfor as (i1 & -> & Hle & Hs1).
        destruct (IH num_books (books ++ i1) (page + 1)
                    (set_requested (requested w ++ [page]) w))
          as (j & Hj & Hreq & Hframe & Hout).
        exists (S j). split; [lia|]. split.
        { rewrite Hreq. cbn [requested set_requested pages].
          rewrite <- app_assoc. reflexivity. }
        split.
        { destruct Hframe as (? & ? & ? & ? & ? & ? & ? & ?).
          repeat split; assumption. }
        destruct (fst (while_books fuel num_books (books ++ i1) (page + 1) _))
          as [final|e|]; [| exact Hout | exact I].
        destruct Hout as ((i2 & -> & Hs2) & Hmax & Hstd).
        split; [exists (i1 ++ i2); rewrite app_assoc; split;
                [reflexivity | apply Forall_app; split; assumption]|].
        split; [lia | exact Hstd].
      * exists 1%nat. split; [lia|]. cbn [fst snd].
        split; [reflexivity|]. split; [repeat split|].
        split; [reflexivity | right; exact Hfor].
Qed.

Lemma get_books_data_unfold num_books ti w :
  get_books_data num_books ti w =
  match while_books (Z.to_nat num_books) num_books [] 1 w with
  | (Ok books, w1) =>
    (Ok PyNone,
     set_xcom (<[(task_id ti, "raw_book_data"%string) := XRaw books]> (xcom w1))
       (set_stdout (stdout w1 ++ [Scraped (len books)]) w1))
  | (Raise e, w1) => (Raise e, w1)
  | (Fuel, w1) => (Fuel, w1)
  end.
Proof.
  unfold get_books_data, bind at 1.
  destruct (while_books _ _ _ _ _) as [[books|e|] w1]; reflexivity.
Qed.

(** A whole run of the Collector, under any site. *)
Lemma get_books_data_run num_books ti w :
  exists j, Z.of_nat j <= Z.max 0 num_books
    /\ requested (snd (get_books_data num_books ti w)) = requested w ++ pages 1 j
    /\ web (snd (get_books_data num_books ti w)) = web w
    /\ same_database w (snd (get_books_data num_books ti w))
    /\ match fst (get_books_data num_books ti w) with
       | Ok v =>
         v = PyNone
         /\ exists items,
              xcom (snd (get_books_data num_books ti w))
              = <[(task_id ti, "raw_book_data"%string) := XRaw items]> (xcom w)
              /\ len items <= Z.max 0 num_books
              /\ Forall price_stripped items
              /\ (stdout (snd (get_books_data num_books ti w))
                  = stdout w ++ [Scraped (len items)]
                  \/ exists warning,
                       stdout (snd (get_books_data num_books ti w))
                       = stdout w ++ [warning; Scraped (len items)])
       | Raise e =>
         xcom (snd (get_books_data num_books ti w)) = xcom w
         /\ stdout (snd (get_books_data num_books ti w)) = stdout w
         /\ (e = ConnectionError \/ e = MarkupError \/ e = IndexError)
       | Fuel => False
       end.
Proof.
  rewrite get_books_data_unfold.
  pose proof (while_books_no_fuel (Z.to_nat num_books) num_books [] 1 w) as Hterm.
  destruct (while_books_run (Z.to_nat num_books) num_books [] 1 w)
    as (j & Hj & Hreq & (Hweb & Hxcom & _ & Hdb) & Hout).
  destruct (while_books (Z.to_nat num_books) num_books [] 1 w) as [[books|e|] w1];
    cbn [fst snd] in *.
  - exists j. split; [lia|].
    cbn [requested web xcom stdout set_stdout set_xcom].
    split; [exact Hreq|]. split; [exact Hweb|].
    split; [destruct Hdb as (? & ? & ? & ? & ?); repeat split; assumption|].
    split; [reflexivity|].
    destruct Hout as ((items & -> & Hs) & Hmax & Hstd).
    exists items. cbn [app] in *. rewrite Hxcom. split; [reflexivity|].
    split; [unfold len in *; simpl in Hmax; lia|]. split; [exact Hs|].
    destruct Hstd as [-> | (warning & ->)].
    + left. reflexivity.
    + right. exists warning. rewrite <- app_assoc. reflexivity.
  - exists j. split; [lia|]. split; [exact Hreq|]. split; [exact Hweb|].
    split; [exact Hdb|]. destruct Hout as (Hstd & He).
    split; [exact Hxcom|]. split; [exact Hstd | exact He].
  - exfalso. apply Hterm; [unfold len; cbn [length Z.of_nat]; lia | reflexivity].
Qed.

(** X1. With a target of zero or less the Collector makes no request: it
    prints "Scraped 0 books" and emits the empty list. *)
Theorem collector_nonpositive_target num_books ti w :
  num_books <= 0 ->
  get_books_data num_books ti w =
  (Ok PyNone,
   set_xcom (<[(task_id ti, "raw_book_data"%string) := XRaw []]> (xcom w))
     (set_stdout (stdout w ++ [Scraped 0]) w)).
Proof.
  intros H. unfold get_books_data, bind at 1.
  rewrite while_books_done by (unfold len; simpl; lia). reflexivity.
Qed.

Lemma collector_nonpositive_target_witness :
  -3 <= 0
  /\ requested (snd (get_books_data (-3) fetch_ti (on_site (short_site velvet_pod)))) = []
  /\ xcom (snd (get_books_data (-3) fetch_ti (on_site (short_site velvet_pod))))
       !! raw_slot = Some (XRaw []).
Proof.
  split; [lia|].
  rewrite (collector_nonpositive_target (-3) fetch_ti
             (on_site (short_site velvet_pod))) by lia.
  split; [reflexivity | vm_compute; reflexivity].
Defined.

(** X2. A run of the Collector that returns has emitted, under its own
    task id, a list of at most [num_books] records (none for a target
    below zero), whatever the site serves. *)
Theorem collector_never_exceeds_target num_books ti w :
  fst (get_books_data num_books ti w) = Ok PyNone ->
  exists items,
    xcom (snd (get_books_data num_books ti w))
      !! (task_id ti, "raw_book_data"%string) = Some (XRaw items)
    /\ len items <= Z.max 0 num_books.
Proof.
  intros Hok.
  destruct (get_books_data_run num_books ti w) as (j & _ & _ & _ & _ & Hout).
  rewrite Hok in Hout. destruct Hout as (_ & items & Hx & Hlen & _).
  exists items. rewrite Hx, lookup_insert_eq. split; [reflexivity | exact Hlen].
Qed.

Lemma collector_never_exceeds_target_witness :
  fst (get_books_data 2 fetch_ti (on_site (short_site velvet_pod))) = Ok PyNone
  /\ exists items,
       xcom (snd (get_books_data 2 fetch_ti (on_site (short_site velvet_pod))))
         !! (task_id fetch_ti, "raw_book_data"%string) = Some (XRaw items)
       /\ len items <= 2.
Proof.
  assert (H : fst (get_books_data 2 fetch_ti (on_site (short_site velvet_pod)))
              = Ok PyNone) by (vm_compute; reflexivity).
  split; [exact H|].
  exact (collector_never_exceeds_target 2 fetch_ti _ H).
Defined.

(** X3. When the Collector raises (the site cannot be reached, or a
    container lacks a tag, an attribute or a second class token) it has
    pushed nothing on the bus and printed nothing, and the error is one of
    those three kinds. *)
Theorem collector_error_emits_nothing num_books ti w e :
  fst (get_books_data num_books ti w) = Raise e ->
  xcom (snd (get_books_data num_books ti w)) = xcom w
  /\ stdout (snd (get_books_data num_books ti w)) = stdout w
  /\ (e = ConnectionError \/ e = MarkupError \/ e = IndexError).
Proof.
  intros Hraise.
  destruct (get_books_data_run num_books ti w) as (j & _ & _ & _ & _ & Hout).
  rewrite Hraise in Hout. exact Hout.
Qed.

Lemma collector_error_emits_nothing_witness :
  fst (get_books_data 50 fetch_ti (on_site (short_site broken_pod)))
  = Raise MarkupError
  /\ xcom (snd (get_books_data 50 fetch_ti (on_site (short_site broken_pod))))
     = xcom (on_site (short_site broken_pod))
  /\ stdout (snd (get_books_data 50 fetch_ti (on_site (short_site broken_pod)))) = [].
Proof.
  assert (H : fst (get_books_data 50 fetch_ti (on_site (short_site broken_pod)))
              = Raise MarkupError) by (vm_compute; reflexivity).
  split; [exact H|].
  destruct (collector_error_emits_nothing 50 fetch_ti _ _ H) as (Hx & Hs & _).
  split; [exact Hx | exact Hs].
Defined.

(** X4. Whatever its outcome, the Collector requests the pages 1, 2, ...
    in order, each once, never more pages than its target (none for a
    target of zero or less), and leaves the site and the database side of
    the world as they were. *)
Theorem collector_requests_in_order num_books ti w :
  exists j,
    Z.of_nat j <= Z.max 0 num_books
    /\ requested (snd (get_books_data num_books ti w)) = requested w ++ pages 1 j
    /\ web (snd (get_books_data num_books ti w)) = web w
    /\ same_database w (snd (get_books_data num_books ti w)).
Proof.
  destruct (get_books_data_run num_books ti w) as (j & Hj & Hreq & Hweb & Hdb & _).
  exists j. repeat split; try assumption; apply Hdb.
Qed.

(** X5. Every record the Collector emits carries a price without
    whitespace at either end: stripping it again changes nothing. *)
Theorem collector_prices_stripped num_books ti w items :
  fst (get_books_data num_books ti w) = Ok PyNone ->
  xcom (snd (get_books_data num_books ti w))
    !! (task_id ti, "raw_book_data"%string) = Some (XRaw items) ->
  Forall (fun r => strip (raw_price r) = raw_price r) items.
Proof.
  intros Hok Hslot.
  destruct (get_books_data_run num_books ti w) as (j & _ & _ & _ & _ & Hout).
  rewrite Hok in Hout. destruct Hout as (_ & items' & Hx & _ & Hs & _).
  rewrite Hx, lookup_insert_eq in Hslot. injection Hslot as <-. exact Hs.
Qed.

Lemma collector_prices_stripped_witness :
  fst (get_books_data 2 fetch_ti (on_site (short_site velvet_pod))) = Ok PyNone
  /\ xcom (snd (get_books_data 2 fetch_ti (on_site (short_site velvet_pod))))
       !! (task_id fetch_ti, "raw_book_data"%string) = Some (XRaw [attic; velvet])
  /\ Forall (fun r => strip (raw_price r) = raw_price r) [attic; velvet].
Proof.
  assert (H : fst (get_books_data 2 fetch_ti (on_site (short_site velvet_pod)))
              = Ok PyNone) by (vm_compute; reflexivity).
  assert (Hx : xcom (snd (get_books_data 2 fetch_ti (on_site (short_site velvet_pod))))
                 !! (task_id fetch_ti, "raw_book_data"%string)
               = Some (XRaw [attic; velvet])) by (vm_compute; reflexivity).
  split; [exact H|]. split; [exact Hx|].
  exact (collector_prices_stripped 2 fetch_ti _ _ H Hx).
Defined.

(** ** The Normalizer on any input *)

Lemma rating_map_range (label : ustr) n :
  rating_map !! label = Some n -> 1 <= n <= 5.
Proof.
  rewrite rating_map_spec. unfold spec_rating.
  repeat (destruct (decide (label = _)) as [_|_]; [intros [= <-]; lia|]).
  discriminate.
Qed.

Lemma traverse_elements {A B} (f : A -> Outcome B) l bs b :
  traverse f l = Ok bs -> In b bs -> exists a, In a l /\ f a = Ok b.
Proof.
  revert bs. induction l as [|x l IH]; intros bs; simpl.
  - intros [= <-] [].
  - destruct (f x) as [y| |] eqn:Hx; try discriminate.
    destruct (traverse f l) as [bs'| |]; try discriminate.
    intros [= <-] [<-|Hin].
    + exists x. split; [left; reflexivity | exact Hx].
    + destruct (IH bs' eq_refl Hin) as (a & Ha & Hfa).
      exists a. split; [right; exact Ha | exact Hfa].
Qed.

Section NormalizerOnAnyInput.

Variable unicode_decimal : N -> option N.

Lemma decimal_value_nonneg ip fp : (0 <= decimal_value ip fp)%Q.
Proof.
  unfold decimal_value. rewrite Qred_correct. unfold Qle. simpl. lia.
Qed.

Lemma py_float_nonneg s q : py_float unicode_decimal s = Ok q -> (0 <= q)%Q.
Proof.
  unfold py_float. destruct (take_digits unicode_decimal s) as [ip r].
  destruct r as [|c r'].
  - destruct ip; [discriminate|]. intros [= <-]. apply decimal_value_nonneg.
  - destruct (c =? dot)%N; [|discriminate].
    destruct (take_digits unicode_decimal r') as [fp r''].
    destruct r''; [|discriminate].
    destruct ip, fp; try discriminate; intros [= <-]; apply decimal_value_nonneg.
Qed.

Lemma normalize_clean r item :
  normalize unicode_decimal r = Ok item -> clean_item item.
Proof.
  unfold normalize. rewrite spec_price_code.
  destruct (py_float unicode_decimal _) as [q| |] eqn:Hq; try discriminate.
  intros [= <-]. unfold clean_item. cbn [price title rating].
  split; [exact (py_float_nonneg _ _ Hq)|].
  split; [apply strip_idempotent|].
  rewrite <- rating_map_spec.
  destruct (rating_map !! raw_rating r) as [n|] eqn:Hn; [|left; reflexivity].
  right. exists n. split; [reflexivity | exact (rating_map_range _ _ Hn)].
Qed.

(** X6. With nothing under the raw key, or an empty list, the Normalizer
    prints "No data to transform", pushes nothing and does not raise. *)
Theorem normalizer_empty_input ti w :
  xcom w !! raw_slot = None \/ xcom w !! raw_slot = Some (XRaw []) ->
  transform_books_data unicode_decimal ti w
  = (Ok PyNone, set_stdout (stdout w ++ [NoDataToTransform]) w).
Proof.
  intros H. rewrite transform_books_data_run.
  destruct H as [-> | ->]; reflexivity.
Qed.

(** X7. On a non-empty input, a run of the Normalizer that returns has
    emitted one record per raw record, each with a price that is not
    negative, a title that stripping leaves as it is, and a rating that is
    missing or between 1 and 5. *)
Theorem normalizer_emits_clean_items ti w :
  raw_records (xcom w !! raw_slot) <> [] ->
  fst (transform_books_data unicode_decimal ti w) = Ok PyNone ->
  exists df,
    xcom (snd (transform_books_data unicode_decimal ti w))
      !! (task_id ti, "cleaned_book_data"%string) = Some (XClean df)
    /\ length df = length (raw_records (xcom w !! raw_slot))
    /\ Forall clean_item df.
Proof.
  intros Hne. rewrite transform_books_data_run.
  destruct (raw_records _) as [|r0 records]; [contradiction|].
  destruct (traverse _ (r0 :: records)) as [df|e|] eqn:Ht; try discriminate.
  intros _. exists df. cbn [snd xcom set_xcom]. rewrite lookup_insert_eq.
  split; [reflexivity|]. split; [exact (traverse_length _ _ _ Ht)|].
  exact (traverse_Forall _ _ _ _ normalize_clean Ht).
Qed.

(** X8. A character that is neither a decimal digit nor a dot has no
    effect on the price, wherever it stands: a sign, a currency symbol, a
    thousands separator or a blank are dropped before parsing. *)
Theorem price_ignores_other_characters (a b : ustr) c :
  digit_or_dot unicode_decimal c = false ->
  str_replace unicode_decimal (a ++ c :: b) = str_replace unicode_decimal (a ++ b)
  /\ py_float unicode_decimal
       (series_replace (str_replace unicode_decimal (a ++ c :: b)))
     = py_float unicode_decimal
         (series_replace (str_replace unicode_decimal (a ++ b))).
Proof.
  intros Hc.
  assert (H : str_replace unicode_decimal (a ++ c :: b)
              = str_replace unicode_decimal (a ++ b)).
  { unfold str_replace. rewrite !List.filter_app. cbn [List.filter].
    rewrite Hc. reflexivity. }
  split; [exact H | rewrite H; reflexivity].
Qed.

(** X9. Whatever its outcome, the Normalizer leaves the site, the database
    side of the world and the raw records on the bus as they were; when it
    raises it leaves the whole world as it was. *)
Theorem normalizer_frame ti w :
  same_site w (snd (transform_books_data unicode_decimal ti w))
  /\ same_database w (snd (transform_books_data unicode_decimal ti w))
  /\ xcom (snd (transform_books_data unicode_decimal ti w)) !! raw_slot
     = xcom w !! raw_slot
  /\ (forall e, fst (transform_books_data unicode_decimal ti w) = Raise e ->
        snd (transform_books_data unicode_decimal ti w) = w).
Proof.
  rewrite transform_books_data_run.
  destruct (raw_records _) as [|r0 records].
  - cbn [fst snd]. split; [split; reflexivity|]. split; [repeat split|].
    split; [reflexivity | intros e H; discriminate H].
  - destruct (traverse _ _) as [df|e|]; cbn [fst snd].
    + split; [split; reflexivity|]. split; [repeat split|].
      split; [|intros e H; discriminate H]. cbn [xcom set_xcom].
      apply lookup_insert_ne. unfold raw_slot. intros [= _ H].
    + split; [split; reflexivity|]. split; [repeat split|].
      split; [reflexivity | intros e' _; reflexivity].
    + split; [split; reflexivity|]. split; [repeat split|].
      split; [reflexivity | intros e H; discriminate H].
Qed.

End NormalizerOnAnyInput.

Lemma normalizer_empty_input_witness :
  (xcom blank !! raw_slot = None \/ xcom blank !! raw_slot = Some (XRaw []))
  /\ fst (transform_books_data ascii_digits_only transform_ti blank) = Ok PyNone
  /\ xcom (snd (transform_books_data ascii_digits_only transform_ti blank)) = xcom blank.
Proof.
  assert (H : xcom blank !! raw_slot = None \/ xcom blank !! raw_slot = Some (XRaw []))
    by (left; reflexivity).
  split; [exact H|].
  rewrite (normalizer_empty_input ascii_digits_only transform_ti blank H).
  split; reflexivity.
Defined.

Lemma normalizer_emits_clean_items_witness :
  raw_records (xcom (with_raw [mkRaw (u " A ") (u "-5.00") (u "Zero")] blank) !! raw_slot)
    <> []
  /\ exists df,
       xcom (snd (transform_books_data ascii_digits_only transform_ti
                    (with_raw [mkRaw (u " A ") (u "-5.00") (u "Zero")] blank)))
         !! (task_id transform_ti, "cleaned_book_data"%string) = Some (XClean df)
       /\ Forall clean_item df.
Proof.
  assert (H : raw_records
                (xcom (with_raw [mkRaw (u " A ") (u "-5.00") (u "Zero")] blank)
                 !! raw_slot) <> []) by (vm_compute; discriminate).
  split; [exact H|].
  destruct (normalizer_emits_clean_items ascii_digits_only transform_ti _ H)
    as (df & Hx & _ & Hclean); [vm_compute; reflexivity|].
  exists df. split; [exact Hx | exact Hclean].
Defined.

Lemma price_ignores_other_characters_witness :
  digit_or_dot ascii_digits_only 45 = false
  /\ py_float ascii_digits_only
       (series_replace (str_replace ascii_digits_only (u "-5.00")))
     = py_float ascii_digits_only
         (series_replace (str_replace ascii_digits_only (u "5.00")))
  /\ py_float ascii_digits_only
       (series_replace (str_replace ascii_digits_only (u "5.00"))) = Ok 5%Q.
Proof.
  split; [reflexivity|].
  destruct (price_ignores_other_characters ascii_digits_only [] (u "5.00") 45%N)
    as (_ & H); [reflexivity|].
  split; [exact H | reflexivity].
Defined.

(** ** The Persister under any schedule *)

(** One step through a sequence of effects that keeps [off_the_bus]. *)
Ltac frame_step :=
  first [ apply keeps_bind; [exact off_the_bus_trans | | intros ?]
        | apply keeps_ret; exact off_the_bus_refl ].

Lemma server_call_frame : keeps off_the_bus server_call.
Proof.
  intros w. unfold server_call. destruct (faults w) as [|[] rest];
    unfold off_the_bus; simpl; repeat split; lia.
Qed.

Lemma logged_frame c : keeps off_the_bus (logged c).
Proof. intros w. unfold off_the_bus. simpl. repeat split. lia. Qed.

Lemma print_frame l : keeps off_the_bus (print l).
Proof. intros w. unfold off_the_bus. simpl. repeat split. lia. Qed.

Lemma the_conn_frame conn : keeps off_the_bus (the_conn conn).
Proof.
  intros w. unfold the_conn. destruct (conns w !! conn) as [c|];
    [destruct (closed c)|]; apply off_the_bus_refl.
Qed.

Lemma run_stmt_frame s view : keeps off_the_bus (run_stmt s view).
Proof.
  intros w. destruct s, view; unfold off_the_bus; simpl;
    try destruct (books w); simpl; repeat split; lia.
Qed.

Lemma set_conns_frame {A} (a : A) (f : World -> list Conn) :
  keeps off_the_bus (fun w => (Ok a, set_conns (f w) w)).
Proof. intros w. unfold off_the_bus. simpl. repeat split. lia. Qed.

Lemma cur_execute_frame cur s : keeps off_the_bus (cur_execute cur s).
Proof.
  unfold cur_execute. frame_step; [apply the_conn_frame|].
  frame_step; [apply server_call_frame|].
  frame_step; [intros w; apply off_the_bus_refl|].
  frame_step; [apply run_stmt_frame|].
  frame_step; [apply logged_frame|].
  apply (set_conns_frame tt).
Qed.

Lemma for_record_frame cur records : keeps off_the_bus (for_record cur records).
Proof.
  induction records as [|r records IH]; cbn [for_record].
  - frame_step.
  - frame_step; [apply cur_execute_frame | exact IH].
Qed.

Lemma conn_commit_frame conn : keeps off_the_bus (conn_commit conn).
Proof.
  unfold conn_commit. frame_step; [apply the_conn_frame|].
  frame_step; [apply server_call_frame|].
  frame_step; [apply logged_frame|].
  intros w. unfold off_the_bus, committed_seq.
  destruct (txn _) as [[rows|]|], (books w); simpl; repeat split; lia.
Qed.

Lemma psycopg2_connect_frame : keeps off_the_bus psycopg2_connect.
Proof.
  unfold psycopg2_connect. frame_step; [apply server_call_frame|].
  frame_step; [apply logged_frame|].
  intros w. unfold off_the_bus. simpl. repeat split. lia.
Qed.

Lemma save_to_postgres_frame ti : keeps off_the_bus (save_to_postgres ti).
Proof.
  unfold save_to_postgres.
  frame_step; [intros w; apply off_the_bus_refl|].
  destruct (cleaned_records _) as [|r rs].
  - frame_step; [apply print_frame | frame_step].
  - frame_step; [apply psycopg2_connect_frame|].
    frame_step; [unfold conn_cursor; frame_step; [apply the_conn_frame | frame_step]|].
    frame_step; [apply cur_execute_frame|].
    frame_step; [apply for_record_frame|].
    frame_step; [apply conn_commit_frame|].
    frame_step; [apply logged_frame|].
    frame_step; [unfold conn_close; frame_step;
                 [apply logged_frame | apply (set_conns_frame tt)]|].
    frame_step; [apply print_frame | frame_step].
Qed.

Lemma new_rows_ids seq t records :
  map id (new_rows seq t records) = ids_from seq (length records).
Proof.
  revert seq. induction records as [|r records IH]; intros seq; simpl;
    [reflexivity | f_equal; apply IH].
Qed.

Lemma new_rows_created_at seq t records :
  Forall (fun r => created_at r = t) (new_rows seq t records).
Proof.
  revert seq. induction records as [|r records IH]; intros seq; simpl;
    constructor; [reflexivity | apply IH].
Qed.



(** X10. A run whose server calls all succeed gives the new rows the next
    values of the sequence, one after the other and in the order of the
    records, moves the sequence past them, and stamps them all with the
    time of the run. *)
Theorem persister_assigns_consecutive_ids ti w :
  no_fault (length (cleaned_records (xcom w !! cleaned_slot)) + 3) (faults w) = true ->
  exists new,
    rows_of (books (snd (save_to_postgres ti w))) = rows_of (books w) ++ new
    /\ map id new
       = ids_from (books_id_seq w) (length (cleaned_records (xcom w !! cleaned_slot)))
    /\ books_id_seq (snd (save_to_postgres ti w))
       = (books_id_seq w
          + N.of_nat (length (cleaned_records (xcom w !! cleaned_slot))))%N
    /\ Forall (fun r => created_at r = now w) new.
Proof.
  intros Hok. destruct (cleaned_records _) as [|r rs] eqn:Hrec.
  - rewrite (save_to_postgres_empty ti w Hrec). exists [].
    cbn [snd books books_id_seq set_stdout length N.of_nat ids_from map].
    rewrite app_nil_r, N.add_0_r. repeat split. constructor.
  - pose proof (save_to_postgres_cases ti w r rs Hrec) as Hrun.
    rewrite Hok in Hrun. rewrite Hrun. cbn [snd books books_id_seq rows_of].
    exists (new_rows (books_id_seq w) (now w) (r :: rs)).
    split; [reflexivity|]. split; [apply new_rows_ids|].
    split; [reflexivity | apply new_rows_created_at].
Qed.

Lemma persister_assigns_consecutive_ids_witness :
  no_fault (length (cleaned_records
                      (xcom (with_cleaned [one_book; one_book] blank) !! cleaned_slot)) + 3)
    (faults (with_cleaned [one_book; one_book] blank)) = true
  /\ map id (rows_of (books (snd (save_to_postgres save_ti
                                    (with_cleaned [one_book; one_book] blank)))))
     = [1; 2]%N
  /\ books_id_seq (snd (save_to_postgres save_ti
                          (with_cleaned [one_book; one_book] blank))) = 3%N.
Proof.
  assert (H : no_fault
                (length (cleaned_records
                           (xcom (with_cleaned [one_book; one_book] blank)
                            !! cleaned_slot)) + 3)
                (faults (with_cleaned [one_book; one_book] blank)) = true)
    by (vm_compute; reflexivity).
  split; [exact H|].
  destruct (persister_assigns_consecutive_ids save_ti _ H)
    as (new & Hrows & Hids & Hseq & _).
  split; [rewrite Hrows; cbn [books rows_of with_cleaned set_xcom blank app];
          rewrite Hids; vm_compute; reflexivity|].
  rewrite Hseq. vm_compute. reflexivity.
Defined.



(** X12. Whatever its outcome, the Persister writes nothing on the bus,
    makes no request to the site and never moves the sequence back; it
    opens at most one connection and leaves the earlier ones as they
    were. *)
Theorem persister_frame ti w :
  off_the_bus w (snd (save_to_postgres ti w))
  /\ exists opened,
       conns (snd (save_to_postgres ti w)) = conns w ++ opened
       /\ (length opened <= 1)%nat.
Proof.
  split; [apply save_to_postgres_frame|].
  destruct (cleaned_records (xcom w !! cleaned_slot)) as [|r rs] eqn:Hrec.
  - rewrite (save_to_postgres_empty ti w Hrec). exists [].
    cbn [snd conns set_stdout]. rewrite app_nil_r. split; [reflexivity | simpl; lia].
  - pose proof (save_to_postgres_cases ti w r rs Hrec) as Hrun.
    destruct (no_fault _ _).
    + rewrite Hrun. eexists. split; [reflexivity | simpl; lia].
    + destruct Hrun as (w' & -> & _ & _ & _ & [Hc | (t & Hc)] & _); cbn [snd].
      * exists []. rewrite app_nil_r. split; [exact Hc | simpl; lia].
      * eexists. split; [exact Hc | simpl; lia].
Qed.

(** ** The three tasks in sequence *)

Lemma fetch_book_data_slot w :
  fst (fetch_book_data w) = Ok PyNone ->
  exists items,
    xcom (snd (fetch_book_data w)) = <[raw_slot := XRaw items]> (xcom w)
    /\ same_database w (snd (fetch_book_data w)).
Proof.
  unfold fetch_book_data. intros Hok.
  destruct (get_books_data_run 50 (mkTi "fetch_book_data") w)
    as (j & _ & _ & _ & Hdb & Hout).
  rewrite Hok in Hout. destruct Hout as (_ & items & Hx & _).
  exists items. split; [exact Hx | exact Hdb].
Qed.

Section Pipeline.

Variable unicode_decimal : N -> option N.

(** The DAG from the point where the Collector has returned. *)
Lemma books_pipeline_dag_after_fetch w :
  fst (fetch_book_data w) = Ok PyNone ->
  books_pipeline_dag unicode_decimal w =
  (transform_books unicode_decimal ;;; save_books_data) (snd (fetch_book_data w)).
Proof.
  intros Hok. unfold books_pipeline_dag, bind at 1.
  destruct (fetch_book_data w) as [[v| |] w1]; try discriminate. reflexivity.
Qed.

(** X13. When the Collector has returned a non-empty list of records whose
    prices all parse and no server call fails, the DAG ends without error
    and the table holds, after the rows it had, one row per scraped record
    in encounter order, carrying that record's normalised title, price
    and rating. *)
Theorem pipeline_loads_what_it_scraped w items df :
  fst (fetch_book_data w) = Ok PyNone ->
  xcom (snd (fetch_book_data w)) !! raw_slot = Some (XRaw items) ->
  items <> [] ->
  traverse (normalize unicode_decimal) items = Ok df ->
  no_fault (length items + 3) (faults w) = true ->
  exists new,
    fst (books_pipeline_dag unicode_decimal w) = Ok PyNone
    /\ rows_of (books (snd (books_pipeline_dag unicode_decimal w)))
       = rows_of (books w) ++ new
    /\ map row_tuple new = map item_tuple df
    /\ length new = length items.
Proof.
  intros Hok Hslot Hne Hdf Hfaults.
  rewrite (books_pipeline_dag_after_fetch w Hok).
  destruct (fetch_book_data_slot w Hok)
    as (items' & _ & (Hbooks & _ & _ & Hfl & _)).
  set (w1 := snd (fetch_book_data w)) in *.
  pose proof (traverse_length _ _ _ Hdf) as Hlen.
  assert (Hpipe : exists wf new,
            (transform_books unicode_decimal ;;; save_books_data) w1 = (Ok PyNone, wf)
            /\ books wf = Some (rows_of (books w1) ++ new)
            /\ map row_tuple new = map item_tuple df
            /\ length new = length df).
  { unfold bind at 1, transform_books.
    rewrite transform_books_data_run, Hslot. cbn [raw_records].
    destruct items as [|r0 items0]; [contradiction|].
    rewrite Hdf. destruct df as [|d0 df0]; [discriminate Hlen|].
    unfold save_books_data.
    match goal with |- context [save_to_postgres ?ti ?w'] => set (w2 := w') end.
    assert (Hc : cleaned_records (xcom w2 !! cleaned_slot) = d0 :: df0).
    { unfold w2, cleaned_slot. cbn [xcom set_xcom task_id].
      rewrite lookup_insert_eq. reflexivity. }
    pose proof (save_to_postgres_cases (mkTi "save_books_data") w2 d0 df0 Hc) as Hrun.
    change (faults w2) with (faults w1) in Hrun.
    rewrite Hfl, Hlen, Hfaults in Hrun. rewrite Hrun.
    eexists. exists (new_rows (books_id_seq w2) (now w2) (d0 :: df0)).
    split; [reflexivity|]. split; [reflexivity|].
    split; [apply new_rows_tuples | apply new_rows_length]. }
  destruct Hpipe as (wf & new & -> & Hb & Htup & Hnew).
  exists new. cbn [fst snd]. rewrite Hb, Hbooks. cbn [rows_of].
  split; [reflexivity|]. split; [reflexivity|].
  split; [exact Htup | rewrite Hnew; exact Hlen].
Qed.

(** X14. When the Collector has returned an empty list and nothing is
    filed under the cleaned key, the other two tasks print their "no data"
    lines and the DAG ends without error: no connection is opened, no
    server call is made and the table is as it was. *)
Theorem pipeline_empty_scrape w :
  fst (fetch_book_data w) = Ok PyNone ->
  xcom (snd (fetch_book_data w)) !! raw_slot = Some (XRaw []) ->
  xcom w !! cleaned_slot = None ->
  fst (books_pipeline_dag unicode_decimal w) = Ok PyNone
  /\ same_database w (snd (books_pipeline_dag unicode_decimal w))
  /\ stdout (snd (books_pipeline_dag unicode_decimal w))
     = stdout (snd (fetch_book_data w)) ++ [NoDataToTransform; NoDataToLoad].
Proof.
  intros Hok Hslot Hclean.
  rewrite (books_pipeline_dag_after_fetch w Hok).
  destruct (fetch_book_data_slot w Hok) as (items & Hx & Hdb).
  set (w1 := snd (fetch_book_data w)) in *.
  assert (Hpipe : (transform_books unicode_decimal ;;; save_books_data) w1
                  = (Ok PyNone,
                     set_stdout (stdout w1 ++ [NoDataToTransform; NoDataToLoad]) w1)).
  { unfold bind at 1, transform_books.
    rewrite transform_books_data_run, Hslot. cbn [raw_records].
    unfold save_books_data. rewrite save_to_postgres_empty.
    - unfold set_stdout. cbn. rewrite <- app_assoc. reflexivity.
    - cbn [xcom set_stdout]. rewrite Hx, lookup_insert_ne, Hclean; [reflexivity|].
      unfold raw_slot, cleaned_slot. intros [= H _].
  }
  rewrite Hpipe. cbn [fst snd stdout set_stdout].
  split; [reflexivity|]. split; [|reflexivity].
  destruct Hdb as (? & ? & ? & ? & ?). repeat split; assumption.
Qed.

(** X15. When the Collector has returned records one of which has a price
    that does not parse, the DAG fails with ValueError in the Normalizer
    and the Persister does not run: no connection is opened, no server call
    is made and the table is as it was. *)
Theorem pipeline_stops_on_bad_price w items r :
  fst (fetch_book_data w) = Ok PyNone ->
  xcom (snd (fetch_book_data w)) !! raw_slot = Some (XRaw items) ->
  In r items ->
  py_float unicode_decimal
    (series_replace (str_replace unicode_decimal (raw_price r))) = Raise ValueError ->
  fst (books_pipeline_dag unicode_decimal w) = Raise ValueError
  /\ same_database w (snd (books_pipeline_dag unicode_decimal w)).
Proof.
  intros Hok Hslot Hin Hbad.
  rewrite (books_pipeline_dag_after_fetch w Hok).
  destruct (fetch_book_data_slot w Hok) as (items' & _ & Hdb).
  set (w1 := snd (fetch_book_data w)) in *.
  assert (Hpipe : (transform_books unicode_decimal ;;; save_books_data) w1
                  = (Raise ValueError, w1)).
  { unfold bind at 1, transform_books.
    rewrite transform_books_data_run, Hslot. cbn [raw_records].
    destruct items as [|r0 items0]; [destruct Hin|].
    rewrite (traverse_raise_in (normalize unicode_decimal) (r0 :: items0) r ValueError).
    - reflexivity.
    - exact Hin.
    - unfold normalize. rewrite spec_price_code, Hbad. reflexivity.
    - intros x e. apply normalize_raises.
    - apply normalize_no_fuel. }
  rewrite Hpipe. split; [reflexivity | exact Hdb].
Qed.

End Pipeline.

Lemma pipeline_loads_what_it_scraped_witness :
  fst (fetch_book_data (on_site (short_site velvet_pod))) = Ok PyNone
  /\ xcom (snd (fetch_book_data (on_site (short_site velvet_pod)))) !! raw_slot
     = Some (XRaw [attic; velvet; velvet])
  /\ exists new,
       rows_of (books (snd (books_pipeline_dag ascii_digits_only
                              (on_site (short_site velvet_pod))))) = [] ++ new
       /\ map row_tuple new
          = [(u "A Light in the Attic", 5177 # 100, Some 3);
             (u "Tipping the Velvet", 2687 # 50, Some 1);
             (u "Tipping the Velvet", 2687 # 50, Some 1)].
Proof.
  assert (Hok : fst (fetch_book_data (on_site (short_site velvet_pod))) = Ok PyNone)
    by (vm_compute; reflexivity).
  assert (Hslot : xcom (snd (fetch_book_data (on_site (short_site velvet_pod))))
                    !! raw_slot = Some (XRaw [attic; velvet; velvet]))
    by (vm_compute; reflexivity).
  split; [exact Hok|]. split; [exact Hslot|].
  destruct (pipeline_loads_what_it_scraped ascii_digits_only
              (on_site (short_site velvet_pod)) [attic; velvet; velvet]
              [mkNorm (u "A Light in the Attic") (5177 # 100) (Some 3);
               mkNorm (u "Tipping the Velvet") (2687 # 50) (Some 1);
               mkNorm (u "Tipping the Velvet") (2687 # 50) (Some 1)] Hok Hslot)
    as (new & _ & Hrows & Htup & _);
    [discriminate | vm_compute; reflexivity | vm_compute; reflexivity |].
  exists new. split; [exact Hrows | exact Htup].
Defined.

Lemma pipeline_empty_scrape_witness :
  fst (fetch_book_data (on_site down_site)) = Ok PyNone
  /\ fst (books_pipeline_dag ascii_digits_only (on_site down_site)) = Ok PyNone
  /\ stdout (snd (books_pipeline_dag ascii_digits_only (on_site down_site)))
     = [FailedToFetch 1; Scraped 0; NoDataToTransform; NoDataToLoad].
Proof.
  assert (Hok : fst (fetch_book_data (on_site down_site)) = Ok PyNone)
    by (vm_compute; reflexivity).
  split; [exact Hok|].
  destruct (pipeline_empty_scrape ascii_digits_only (on_site down_site) Hok)
    as (Hrun & _ & Hout);
    [vm_compute; reflexivity | reflexivity |].
  split; [exact Hrun|]. rewrite Hout. vm_compute. reflexivity.
Defined.

Lemma pipeline_stops_on_bad_price_witness :
  fst (fetch_book_data (on_site (short_site dot_pod))) = Ok PyNone
  /\ fst (books_pipeline_dag ascii_digits_only (on_site (short_site dot_pod)))
     = Raise ValueError
  /\ conns (snd (books_pipeline_dag ascii_digits_only (on_site (short_site dot_pod))))
     = [].
Proof.
  assert (Hok : fst (fetch_book_data (on_site (short_site dot_pod))) = Ok PyNone)
    by (vm_compute; reflexivity).
  split; [exact Hok|].
  destruct (pipeline_stops_on_bad_price ascii_digits_only
              (on_site (short_site dot_pod))
              [attic; velvet; mkRaw (u "Untitled") (u ".") (u "Two")]
              (mkRaw (u "Untitled") (u ".") (u "Two")) Hok)
    as (Hrun & (_ & _ & Hconns & _));
    [vm_compute; reflexivity | right; right; left; reflexivity | reflexivity |].
  split; [exact Hrun | exact Hconns].
Defined.
